(** * File service (S3 objects + DynamoDB metadata): model and properties

    Shallow embedding of [internal/app/service.go].  The handlers are written
    as state-passing functions over the two backing stores; every call that
    leaves the process (object store, metadata store, request body, clock,
    random source) takes its outcome from an explicit environment, so that
    each failure branch of the Go code can be exercised.

    Go library functions that the service calls ([crypto/sha256],
    [encoding/hex], [path/filepath], [net/http] sniffing, [strings],
    [github.com/google/uuid], [time]) are modelled in modules named after the
    package they stand for. *)

From Stdlib Require Import ZArith List String Ascii Lia Bool.
From Stdlib Require Import Init.Byte.
From stdpp Require Import base option list strings gmap fin_maps.
Import ListNotations.

Local Open Scope Z_scope.

(** ** Bytes *)

Definition byte_to_Z (b : byte) : Z := Z.of_N (Byte.to_N b).

Definition byte_of_Z (z : Z) : byte :=
  match Byte.of_N (Z.to_N (z mod 256)) with
  | Some b => b
  | None => x00
  end.

Definition byte_to_ascii (b : byte) : ascii := ascii_of_byte b.

(** A Go string literal holding raw bytes, such as ["\xFF\xD8\xFF"]. *)
Definition bytes_of_string (s : string) : list byte :=
  map byte_of_ascii (list_ascii_of_string s).

(** ** encoding/hex *)

Module hex.

Definition hextable : string := "0123456789abcdef".

Definition digit (n : Z) : ascii :=
  match String.get (Z.to_nat n) hextable with
  | Some c => c
  | None => "0"%char
  end.

(** [Encode]: two characters per source byte, [hextable[v>>4]] then
    [hextable[v&0x0f]]. *)
Fixpoint EncodeToString (src : list byte) : string :=
  match src with
  | [] => EmptyString
  | v :: rest =>
      String (digit (Z.shiftr (byte_to_Z v) 4))
        (String (digit (Z.land (byte_to_Z v) 15)) (EncodeToString rest))
  end.

End hex.

(** ** crypto/sha256 *)

Module sha256.

Definition Size : nat := 32.
Definition chunk : nat := 64.

Definition u32 (x : Z) : Z := x mod 2 ^ 32.

(** [bits.RotateLeft32(x, -k)] on a 32-bit word. *)
Definition rotr (x k : Z) : Z :=
  Z.lor (Z.shiftr x k) (u32 (Z.shiftl x (32 - k))).

(** [^x] on a 32-bit word. *)
Definition not32 (x : Z) : Z := Z.lxor x (2 ^ 32 - 1).

Definition _K : list Z :=
  [ 0x428A2F98; 0x71374491; 0xB5C0FBCF; 0xE9B5DBA5;
    0x3956C25B; 0x59F111F1; 0x923F82A4; 0xAB1C5ED5;
    0xD807AA98; 0x12835B01; 0x243185BE; 0x550C7DC3;
    0x72BE5D74; 0x80DEB1FE; 0x9BDC06A7; 0xC19BF174;
    0xE49B69C1; 0xEFBE4786; 0x0FC19DC6; 0x240CA1CC;
    0x2DE92C6F; 0x4A7484AA; 0x5CB0A9DC; 0x76F988DA;
    0x983E5152; 0xA831C66D; 0xB00327C8; 0xBF597FC7;
    0xC6E00BF3; 0xD5A79147; 0x06CA6351; 0x14292967;
    0x27B70A85; 0x2E1B2138; 0x4D2C6DFC; 0x53380D13;
    0x650A7354; 0x766A0ABB; 0x81C2C92E; 0x92722C85;
    0xA2BFE8A1; 0xA81A664B; 0xC24B8B70; 0xC76C51A3;
    0xD192E819; 0xD6990624; 0xF40E3585; 0x106AA070;
    0x19A4C116; 0x1E376C08; 0x2748774C; 0x34B0BCB5;
    0x391C0CB3; 0x4ED8AA4A; 0x5B9CCA4F; 0x682E6FF3;
    0x748F82EE; 0x78A5636F; 0x84C87814; 0x8CC70208;
    0x90BEFFFA; 0xA4506CEB; 0xBEF9A3F7; 0xC67178F2 ]%Z.

(** The eight chaining words [h[0..7]] of [digest]. *)
Record digest := Digest {
  h0 : Z; h1 : Z; h2 : Z; h3 : Z; h4 : Z; h5 : Z; h6 : Z; h7 : Z
}.

Definition Reset : digest :=
  Digest 0x6A09E667 0xBB67AE85 0x3C6EF372 0xA54FF53A
         0x510E527F 0x9B05688C 0x1F83D9AB 0x5BE0CD19.

Definition at_ (w : list Z) (i : nat) : Z := nth i w 0.

(** Big-endian load of [w[i]] from [p[4i..4i+3]]. *)
Definition load (p : list Z) (i : nat) : Z :=
  let j := (i * 4)%nat in
  Z.lor (Z.lor (Z.lor (Z.shiftl (at_ p j) 24) (Z.shiftl (at_ p (j + 1)) 16))
               (Z.shiftl (at_ p (j + 2)) 8))
        (at_ p (j + 3)).

(** One step of the second loop of [blockGeneric]: appends [w[i]], where
    [i] is the current length of [w]. *)
Definition extend (w : list Z) (i : nat) : list Z :=
  let v1 := at_ w (i - 2) in
  let t1 := Z.lxor (Z.lxor (rotr v1 17) (rotr v1 19)) (Z.shiftr v1 10) in
  let v2 := at_ w (i - 15) in
  let t2 := Z.lxor (Z.lxor (rotr v2 7) (rotr v2 18)) (Z.shiftr v2 3) in
  w ++ [u32 (t1 + at_ w (i - 7) + t2 + at_ w (i - 16))].

Definition schedule (p : list Z) : list Z :=
  fold_left extend (seq 16 48) (map (load p) (seq 0 16)).

(** One iteration of the third loop of [blockGeneric] on the working
    variables [a..h]. *)
Definition round (s : digest) (kw : Z * Z) : digest :=
  let '(Digest a b c d e f g h) := s in
  let t1 := h + Z.lxor (Z.lxor (rotr e 6) (rotr e 11)) (rotr e 25)
              + Z.lxor (Z.land e f) (Z.land (not32 e) g)
              + fst kw + snd kw in
  let t2 := Z.lxor (Z.lxor (rotr a 2) (rotr a 13)) (rotr a 22)
              + Z.lxor (Z.lxor (Z.land a b) (Z.land a c)) (Z.land b c) in
  Digest (u32 (t1 + t2)) a b c (u32 (d + t1)) e f g.

(** The body of [blockGeneric] for one 64-byte chunk. *)
Definition block1 (d : digest) (p : list Z) : digest :=
  let r := fold_left round (combine _K (schedule p)) d in
  Digest (u32 (h0 d + h0 r)) (u32 (h1 d + h1 r)) (u32 (h2 d + h2 r))
         (u32 (h3 d + h3 r)) (u32 (h4 d + h4 r)) (u32 (h5 d + h5 r))
         (u32 (h6 d + h6 r)) (u32 (h7 d + h7 r)).

(** [for len(p) >= chunk { ...; p = p[chunk:] }], with the number of
    iterations as the structural argument. *)
Fixpoint blockGeneric (n : nat) (d : digest) (p : list Z) : digest :=
  match n with
  | O => d
  | S n' => blockGeneric n' (block1 d (take chunk p)) (drop chunk p)
  end.

(** Big-endian bytes of a [k]-byte unsigned integer. *)
Fixpoint bigEndian (k : nat) (x : Z) : list Z :=
  match k with
  | O => []
  | S k' => (Z.shiftr x (8 * Z.of_nat k') mod 256) :: bigEndian k' x
  end.

(** [checkSum]: a 1 bit, zero bits up to 56 bytes mod 64, then the
    length in bits as a 64-bit big-endian integer. *)
Definition padding (len : nat) : list Z :=
  let t := if (len mod 64 <? 56)%nat then (56 - len mod 64)%nat
           else (64 + 56 - len mod 64)%nat in
  0x80 :: repeat 0 (t - 1) ++ bigEndian 8 ((Z.of_nat len * 8) mod 2 ^ 64).

Definition checkSum (d : digest) : list byte :=
  map byte_of_Z
    (bigEndian 4 (h0 d) ++ bigEndian 4 (h1 d) ++ bigEndian 4 (h2 d) ++
     bigEndian 4 (h3 d) ++ bigEndian 4 (h4 d) ++ bigEndian 4 (h5 d) ++
     bigEndian 4 (h6 d) ++ bigEndian 4 (h7 d)).

Definition Sum256 (data : list byte) : list byte :=
  let p := map byte_to_Z data ++ padding (length data) in
  checkSum (blockGeneric (length p / chunk) Reset p).

End sha256.

(** ** path/filepath *)

Module filepath.

(** The loop of [Ext], run over the path read from its last byte:
    [for i := len(path)-1; i >= 0 && !os.IsPathSeparator(path[i]); i--]
    returning [path[i:]] at the first ['.'].  [suffix] is [path[i+1:]]. *)
Fixpoint scan (rev_path : list ascii) (suffix : string) : string :=
  match rev_path with
  | [] => EmptyString
  | c :: more =>
      if Ascii.eqb c "/" then EmptyString
      else if Ascii.eqb c "." then String c suffix
      else scan more (String c suffix)
  end.

Definition Ext (path : string) : string :=
  scan (rev (list_ascii_of_string path)) EmptyString.

End filepath.

(** ** strings *)

Module gostrings.

(** [strings.Replace(s, old, new, 1)] for a non-empty [old]: the first
    occurrence of [old] is replaced, and [s] is returned as it is when
    there is none. *)
Fixpoint ReplaceFirst (s old new : string) : string :=
  if String.prefix old s
  then new +:+ String.substring (String.length old)
                 (String.length s - String.length old) s
  else match s with
       | EmptyString => EmptyString
       | String c rest => String c (ReplaceFirst rest old new)
       end.

End gostrings.

(** ** net/http: status codes and content sniffing *)

Module http.

Definition StatusOK : Z := 200.
Definition StatusCreated : Z := 201.
Definition StatusNoContent : Z := 204.
Definition StatusBadRequest : Z := 400.
Definition StatusNotFound : Z := 404.
Definition StatusUnsupportedMediaType : Z := 415.
Definition StatusInternalServerError : Z := 500.

Definition sniffLen : nat := 512.

Inductive sniffSig :=
| htmlSig (h : list byte)
| maskedSig (mask pat : list byte) (skipWS : bool) (ct : string)
| exactSig (sig : list byte) (ct : string).

Definition isWS (b : byte) : bool :=
  let z := byte_to_Z b in
  (z =? 9) || (z =? 10) || (z =? 12) || (z =? 13) || (z =? 32).

Definition isTT (b : byte) : bool :=
  let z := byte_to_Z b in (z =? 32) || (z =? 62).

(** [for ; firstNonWS < len(data) && isWS(data[firstNonWS]); firstNonWS++] *)
Fixpoint firstNonWS (data : list byte) : nat :=
  match data with
  | b :: rest => if isWS b then S (firstNonWS rest) else O
  | [] => O
  end.

(** The loop of [htmlSig.match]: upper-case letters of the signature are
    compared case-insensitively ([db &= 0xDF]); the byte after the
    signature must be a tag-terminating byte. *)
Fixpoint htmlMatch (h data : list byte) : bool :=
  match h, data with
  | [], t :: _ => isTT t
  | b :: h', db :: data' =>
      let zb := byte_to_Z b in
      let zd := byte_to_Z db in
      let zd := if (65 <=? zb) && (zb <=? 90) then Z.land zd 0xDF else zd in
      (zb =? zd) && htmlMatch h' data'
  | _, [] => false
  end.

(** The loop of [maskedSig.match] once the lengths have been checked. *)
Fixpoint maskedMatch (mask pat data : list byte) : bool :=
  match pat, mask, data with
  | [], _, _ => true
  | pb :: pat', m :: mask', d :: data' =>
      (Z.land (byte_to_Z d) (byte_to_Z m) =? byte_to_Z pb)
      && maskedMatch mask' pat' data'
  | _, _, _ => false
  end.

(** [bytes.HasPrefix(data, sig)] *)
Fixpoint hasPrefix (data sig : list byte) : bool :=
  match sig, data with
  | [], _ => true
  | s :: sig', d :: data' => Byte.eqb s d && hasPrefix data' sig'
  | _ :: _, [] => false
  end.

(** [sig.match(data, firstNonWS)]; the empty string means no match. *)
Definition match_ (sig : sniffSig) (data : list byte) (fnw : nat) : string :=
  match sig with
  | htmlSig h =>
      if htmlMatch h (drop fnw data) then "text/html; charset=utf-8"
      else EmptyString
  | maskedSig mask pat skipWS ct =>
      let data := if skipWS then drop fnw data else data in
      if negb (length pat =? length mask)%nat then EmptyString
      else if (length data <? length pat)%nat then EmptyString
      else if maskedMatch mask pat data then ct else EmptyString
  | exactSig sig ct =>
      if hasPrefix data sig then ct else EmptyString
  end.

(** [sniffSignatures], in the order of the table, up to and including the
    JPEG entry.  The entries that follow it in the Go table (audio, video,
    font, archive and text signatures) are consulted only when none of
    these has matched and none of them yields ["image/jpeg"]; they are
    folded into the fallback of [DetectContentType]. *)
Definition sniffSignatures : list sniffSig :=
  [ htmlSig (bytes_of_string "<!DOCTYPE HTML");
    htmlSig (bytes_of_string "<HTML");
    htmlSig (bytes_of_string "<HEAD");
    htmlSig (bytes_of_string "<SCRIPT");
    htmlSig (bytes_of_string "<IFRAME");
    htmlSig (bytes_of_string "<H1");
    htmlSig (bytes_of_string "<DIV");
    htmlSig (bytes_of_string "<FONT");
    htmlSig (bytes_of_string "<TABLE");
    htmlSig (bytes_of_string "<A");
    htmlSig (bytes_of_string "<STYLE");
    htmlSig (bytes_of_string "<TITLE");
    htmlSig (bytes_of_string "<B");
    htmlSig (bytes_of_string "<BODY");
    htmlSig (bytes_of_string "<BR");
    htmlSig (bytes_of_string "<P");
    htmlSig (bytes_of_string "<!--");
    maskedSig [xff; xff; xff; xff; xff] (bytes_of_string "<?xml") true
              "text/xml; charset=utf-8";
    exactSig (bytes_of_string "%PDF-") "application/pdf";
    exactSig (bytes_of_string "%!PS-Adobe-") "application/postscript";
    maskedSig [xff; xff; x00; x00] [xfe; xff; x00; x00] false
              "text/plain; charset=utf-16be";
    maskedSig [xff; xff; x00; x00] [xff; xfe; x00; x00] false
              "text/plain; charset=utf-16le";
    maskedSig [xff; xff; xff; x00] [xef; xbb; xbf; x00] false
              "text/plain; charset=utf-8";
    exactSig [x00; x00; x01; x00] "image/x-icon";
    exactSig [x00; x00; x02; x00] "image/x-icon";
    exactSig (bytes_of_string "BM") "image/bmp";
    exactSig (bytes_of_string "GIF87a") "image/gif";
    exactSig (bytes_of_string "GIF89a") "image/gif";
    maskedSig [xff; xff; xff; xff; x00; x00; x00; x00;
               xff; xff; xff; xff; xff; xff]
              (bytes_of_string "RIFF" ++ [x00; x00; x00; x00]
               ++ bytes_of_string "WEBPVP") false "image/webp";
    exactSig ([x89] ++ bytes_of_string "PNG" ++ [x0d; x0a; x1a; x0a])
             "image/png";
    exactSig [xff; xd8; xff] "image/jpeg" ].

Fixpoint firstMatch (sigs : list sniffSig) (data : list byte) (fnw : nat)
  : string :=
  match sigs with
  | [] => "application/octet-stream"
  | sig :: rest =>
      let ct := match_ sig data fnw in
      if negb (String.eqb ct EmptyString) then ct
      else firstMatch rest data fnw
  end.

Definition DetectContentType (data : list byte) : string :=
  let data := take sniffLen data in
  firstMatch sniffSignatures data (firstNonWS data).

End http.

(** ** github.com/google/uuid *)

Module uuid.

(** [NewRandom]: sixteen bytes from the random source, then the version
    (4) and variant (10) bits. *)
Definition New (rander : nat -> byte) : list byte :=
  let u := map rander (seq 0 16) in
  let u := <[6%nat := byte_of_Z (Z.lor (Z.land (byte_to_Z (rander 6%nat)) 0x0f) 0x40)]> u in
  <[8%nat := byte_of_Z (Z.lor (Z.land (byte_to_Z (rander 8%nat)) 0x3f) 0x80)]> u.

(** [encodeHex]: xxxxxxxx-xxxx-xxxx-xxxx-xxxxxxxxxxxx. *)
Definition String (u : list byte) : string :=
  hex.EncodeToString (take 4 u) +:+ "-" +:+
  hex.EncodeToString (take 2 (drop 4 u)) +:+ "-" +:+
  hex.EncodeToString (take 2 (drop 6 u)) +:+ "-" +:+
  hex.EncodeToString (take 2 (drop 8 u)) +:+ "-" +:+
  hex.EncodeToString (drop 10 u).

End uuid.

(** ** time *)

Module time.

(** A wall-clock reading with its zone offset (seconds east of UTC). *)
Record Time := {
  Year : Z; Month : Z; Day : Z;
  Hour : Z; Minute : Z; Second : Z;
  Offset : Z
}.

Definition digitChar (d : Z) : ascii :=
  ascii_of_nat (48 + Z.to_nat (d mod 10)).

(** [appendInt(b, x, width)] for a non-negative [x] of at most [width]
    digits: zero-padded decimal. *)
Fixpoint appendInt (width : nat) (x : Z) (tail : string) : string :=
  match width with
  | O => tail
  | S w => appendInt w (x / 10) (String.String (digitChar x) tail)
  end.

(** The zone of layout [Z07:00]: [Z] for a zero offset, otherwise the
    offset in minutes ([offset / 60], truncated) as a signed [hh:mm]. *)
Definition zone (offset : Z) : string :=
  if offset =? 0 then "Z"
  else
    let zone := Z.quot offset 60 in
    let sign := if zone <? 0 then "-"%char else "+"%char in
    let zone := Z.abs zone in
    String.String sign
      (appendInt 2 (zone / 60)
         (String.String ":" (appendInt 2 (zone mod 60) EmptyString))).

(** [t.Format(time.RFC3339)], layout [2006-01-02T15:04:05Z07:00], for
    years 0 to 9999. *)
Definition Format_RFC3339 (t : Time) : string :=
  appendInt 4 (Year t) (String.String "-"
    (appendInt 2 (Month t) (String.String "-"
      (appendInt 2 (Day t) (String.String "T"
        (appendInt 2 (Hour t) (String.String ":"
          (appendInt 2 (Minute t) (String.String ":"
            (appendInt 2 (Second t) (zone (Offset t)))))))))))).

End time.

(** ** The service *)

(** A Go [error] value, by its message; [None] is [nil]. *)
Definition error := option string.

(** A Go [(T, error)] result of a call that yields a value or fails. *)
Inductive Result (A : Type) :=
| Ok (a : A)
| Err (e : string).
Arguments Ok {A} a.
Arguments Err {A} e.

Record Service := {
  fileStorageBucket : string;
  dbFileTableName : string
}.

Record FileMetadata := {
  ID : string;
  Hash : string;
  Extension : string;
  CreatedAt : string;
  UpdatedAt : string
}.

Record FileResponse := {
  Metadata : FileMetadata;
  PresignedURL : string
}.

(** What a handler leaves on the [http.ResponseWriter]. *)
Inductive Body :=
| Text (msg : string)
| JSON (r : FileResponse)
| Empty.

(** A handler either writes a response or panics; [net/http] recovers the
    panic of a handler and closes the connection without a response. *)
Inductive Outcome :=
| Response (status : Z) (body : Body)
| Panic (msg : string).

(** [http.Error(w, e, code)]; the newline that it appends to the message is
    left out of [Text]. *)
Definition http_Error (e : string) (code : Z) : Outcome := Response code (Text e).

Definition Encode (code : Z) (r : FileResponse) : Outcome := Response code (JSON r).

Definition nil_dereference : string :=
  "runtime error: invalid memory address or nil pointer dereference".

(** Calls made on the two store clients, in the order they are made. *)
Inductive Call :=
| PutObject (key : string)
| DeleteObject (key : string)
| PresignGetObject (key : string)
| PutItem (id : string)
| GetItem (id : string)
| DeleteItem (id : string)
| Query (hash : string).

(** The content of the configured bucket and of the configured table (keyed
    by the primary key [ID]), with the calls made so far.  An item of the
    table is held as the [FileMetadata] it marshals from: [MarshalMap] of
    five string fields does not fail and [UnmarshalMap] gives the record
    back. *)
Record World := {
  objects : gmap string (list byte);
  items : gmap string FileMetadata;
  calls : list Call
}.

Definition emptyWorld : World :=
  {| objects := ∅; items := ∅; calls := [] |}.

(** What the surroundings answer during one request: whether each remote
    call fails (and with which message), what the signer returns for a
    bucket and key, the random bytes behind [uuid.New] and the clock
    behind [time.Now]. *)
Record Env := {
  readErr : error;
  copyErr : error;
  putObjectErr : error;
  deleteObjectErr : error;
  putItemErr : error;
  getItemErr : error;
  deleteItemErr : error;
  queryErr : error;
  presign : string -> string -> Result string;
  rander : nat -> byte;
  now : time.Time
}.

(** The [multipart.File] of an upload: its bytes and the read offset. *)
Record File := {
  content : list byte;
  offset : nat
}.

Record FileHeader := {
  Filename : string
}.

(** [r.FormFile("file")] *)
Record Request := {
  FormFile : Result (File * FileHeader)
}.

(** *** State passing *)

Definition M (A : Type) : Type := World -> A * World.

Definition ret {A} (a : A) : M A := fun w => (a, w).

Definition bind {A B} (m : M A) (k : A -> M B) : M B :=
  fun w => let (a, w') := m w in k a w'.

Notation "x <- m ;; k" := (bind m (fun x => k))
  (at level 100, m at next level, right associativity).

Definition issue (c : Call) : M unit :=
  fun w => (tt, {| objects := objects w; items := items w; calls := calls w ++ [c] |}).

Definition setObjects (f : gmap string (list byte) -> gmap string (list byte)) : M unit :=
  fun w => (tt, {| objects := f (objects w); items := items w; calls := calls w |}).

Definition setItems (f : gmap string FileMetadata -> gmap string FileMetadata) : M unit :=
  fun w => (tt, {| objects := objects w; items := f (items w); calls := calls w |}).

Definition getItems : M (gmap string FileMetadata) := fun w => (items w, w).

(** *** The store clients *)

Module s3.

Definition PutObject (env : Env) (key : string) (body : list byte) : M error :=
  _ <- issue (PutObject key) ;;
  match putObjectErr env with
  | Some e => ret (Some e)
  | None => _ <- setObjects (insert key body) ;; ret None
  end.

Definition DeleteObject (env : Env) (key : string) : M error :=
  _ <- issue (DeleteObject key) ;;
  match deleteObjectErr env with
  | Some e => ret (Some e)
  | None => _ <- setObjects (delete key) ;; ret None
  end.

(** [GetObjectRequest] followed by [req.Presign(15 * time.Minute)] *)
Definition Presign (env : Env) (bucket key : string) : M (Result string) :=
  _ <- issue (PresignGetObject key) ;;
  ret (presign env bucket key).

End s3.

Module dynamodb.

Definition PutItem (env : Env) (item : FileMetadata) : M error :=
  _ <- issue (PutItem (ID item)) ;;
  match putItemErr env with
  | Some e => ret (Some e)
  | None => _ <- setItems (insert (ID item) item) ;; ret None
  end.

(** The [Item] of the output is [None] when the key is not in the table. *)
Definition GetItem (env : Env) (id : string) : M (Result (option FileMetadata)) :=
  _ <- issue (GetItem id) ;;
  match getItemErr env with
  | Some e => ret (Err e)
  | None => tbl <- getItems ;; ret (Ok (tbl !! id))
  end.

Definition DeleteItem (env : Env) (id : string) : M error :=
  _ <- issue (DeleteItem id) ;;
  match deleteItemErr env with
  | Some e => ret (Some e)
  | None => _ <- setItems (delete id) ;; ret None
  end.

(** The items of the table whose [Hash] attribute is [hash]. *)
Definition matching (hash : string) (tbl : gmap string FileMetadata)
  : list FileMetadata :=
  filter (fun md => Hash md = hash) ((map_to_list tbl).*2).

(** A query of [HashIndex] with [#hash = :hash] and [Limit: 1]; the index
    is read as up to date with the table. *)
Definition Query (env : Env) (hash : string) : M (Result (list FileMetadata)) :=
  _ <- issue (Query hash) ;;
  match queryErr env with
  | Some e => ret (Err e)
  | None => tbl <- getItems ;; ret (Ok (take 1 (matching hash tbl)))
  end.

End dynamodb.

(** *** The request body *)

(** [file.Read(buffer)] on a zeroed [buffer] of [n] bytes: the bytes read
    are placed at its start, and reading at the end of the file is an
    [EOF] error. *)
Definition Read (env : Env) (file : File) (n : nat) : list byte * error * File :=
  match readErr env with
  | Some e => (repeat x00 n, Some e, file)
  | None =>
      let rest := drop (offset file) (content file) in
      match rest with
      | [] => (repeat x00 n, Some "EOF", file)
      | _ =>
          let got := take n rest in
          (got ++ repeat x00 (n - length got), None,
           {| content := content file; offset := (offset file + length got)%nat |})
      end
  end.

(** [file.Seek(0, io.SeekStart)] *)
Definition SeekStart (file : File) : File :=
  {| content := content file; offset := O |}.

(** [io.Copy(fileBuffer, file)]: everything from the current offset. *)
Definition Copy (env : Env) (file : File) : Result (list byte) * File :=
  match copyErr env with
  | Some e => (Err e, file)
  | None =>
      (Ok (drop (offset file) (content file)),
       {| content := content file; offset := length (content file) |})
  end.

(** *** [service.go] *)

Definition validateFile (env : Env) (file : File) (fileHeader : string)
  : Result string * File :=
  let ext := filepath.Ext fileHeader in
  if negb (String.eqb ext ".jpeg") && negb (String.eqb ext ".jpg")
  then (Err "only JPEG files are allowed", file)
  else
    let '(buffer, err, file) := Read env file 512 in
    match err with
    | Some e => (Err ("failed to read file: " +:+ e), file)
    | None =>
        if negb (String.eqb (http.DetectContentType buffer) "image/jpeg")
        then (Err "file is not a valid JPEG image", file)
        else (Ok ext, file)
    end.

Definition replaceLocalstackHostWithLocalhost (url : string) : string :=
  gostrings.ReplaceFirst url "http://localstack:4566" "http://localhost:4566".

Definition generatePresignedURL (s : Service) (env : Env) (objectKey : string)
  : M (Result string) :=
  r <- s3.Presign env (fileStorageBucket s) objectKey ;;
  match r with
  | Err e => ret (Err e)
  | Ok presignedURL => ret (Ok (replaceLocalstackHostWithLocalhost presignedURL))
  end.

Definition uploadToS3 (env : Env) (objectKey : string) (fileBuffer : list byte)
  : M error :=
  s3.PutObject env objectKey fileBuffer.

Definition saveMetadataToDB (env : Env) (metadata : FileMetadata) : M error :=
  if String.eqb (ID metadata) EmptyString || String.eqb (Hash metadata) EmptyString
  then ret (Some "metadata must have non-empty ID and Hash")
  else
    err <- dynamodb.PutItem env metadata ;;
    match err with
    | Some e => ret (Some ("failed to save metadata to DynamoDB: " +:+ e))
    | None => ret None
    end.

(** The Go function returns a pointer to a [FileMetadata] and an [error];
    the [nil] pointer is [None]. *)
Definition retrieveMetadataFromDB (env : Env) (id : string)
  : M (option FileMetadata * error) :=
  result <- dynamodb.GetItem env id ;;
  match result with
  | Err e => ret (None, Some e)
  | Ok None => ret (None, None)
  | Ok (Some item) => ret (Some item, None)
  end.

Definition calculateHash (data : list byte) : string :=
  let hash := sha256.Sum256 data in
  hex.EncodeToString hash.

Definition getFileIDByHash (env : Env) (hash : string)
  : M (Result (option FileMetadata)) :=
  if String.eqb hash EmptyString
  then ret (Err "hash cannot be empty")
  else
    result <- dynamodb.Query env hash ;;
    match result with
    | Err e => ret (Err ("failed to query DynamoDB: " +:+ e))
    | Ok [] => ret (Ok None)
    | Ok (item :: _) => ret (Ok (Some item))
    end.

Definition CreateFile (s : Service) (env : Env) (r : Request) : M Outcome :=
  match FormFile r with
  | Err e => ret (http_Error e http.StatusBadRequest)
  | Ok (file, fileHeader) =>
    let '(v, file) := validateFile env file (Filename fileHeader) in
    match v with
    | Err e => ret (http_Error e http.StatusUnsupportedMediaType)
    | Ok ext =>
      let file := SeekStart file in
      let '(c, file) := Copy env file in
      match c with
      | Err e => ret (http_Error e http.StatusInternalServerError)
      | Ok fileBuffer =>
        let hash := calculateHash fileBuffer in
        q <- getFileIDByHash env hash ;;
        match q with
        | Err e => ret (http_Error e http.StatusInternalServerError)
        | Ok (Some existingFile) =>
          p <- generatePresignedURL s env (ID existingFile +:+ Extension existingFile) ;;
          match p with
          | Err e => ret (http_Error e http.StatusInternalServerError)
          | Ok presignedURL =>
            ret (Encode http.StatusOK
                   {| Metadata := existingFile; PresignedURL := presignedURL |})
          end
        | Ok None =>
          let id := uuid.String (uuid.New (rander env)) in
          let objectKey := id +:+ ext in
          let now := time.Format_RFC3339 (now env) in
          let metadata :=
            {| ID := id; Hash := hash; Extension := ext;
               CreatedAt := now; UpdatedAt := now |} in
          err <- uploadToS3 env objectKey fileBuffer ;;
          match err with
          | Some e => ret (http_Error e http.StatusInternalServerError)
          | None =>
            err <- saveMetadataToDB env metadata ;;
            match err with
            | Some e => ret (http_Error e http.StatusInternalServerError)
            | None =>
              p <- generatePresignedURL s env objectKey ;;
              match p with
              | Err e => ret (http_Error e http.StatusInternalServerError)
              | Ok presignedURL =>
                ret (Encode http.StatusCreated
                       {| Metadata := metadata; PresignedURL := presignedURL |})
              end
            end
          end
        end
      end
    end
  end.

Definition GetFile (s : Service) (env : Env) (id : string) : M Outcome :=
  r <- retrieveMetadataFromDB env id ;;
  let '(metadata, err) := r in
  match err with
  | Some e => ret (http_Error e http.StatusNotFound)
  | None =>
    match metadata with
    | None => ret (http_Error "file not found" http.StatusNotFound)
    | Some metadata =>
      let objectKey := ID metadata +:+ Extension metadata in
      p <- generatePresignedURL s env objectKey ;;
      match p with
      | Err e => ret (http_Error e http.StatusInternalServerError)
      | Ok presignedURL =>
        ret (Encode http.StatusOK
               {| Metadata := metadata; PresignedURL := presignedURL |})
      end
    end
  end.

Definition DeleteFile (s : Service) (env : Env) (id : string) : M Outcome :=
  r <- retrieveMetadataFromDB env id ;;
  let '(metadata, err) := r in
  match err with
  | Some e => ret (http_Error e http.StatusNotFound)
  | None =>
    match metadata with
    | None =>
      (* [metadata.ID] with [metadata == nil] *)
      ret (Panic nil_dereference)
    | Some metadata =>
      let objectKey := ID metadata +:+ Extension metadata in
      err <- s3.DeleteObject env objectKey ;;
      match err with
      | Some e => ret (http_Error e http.StatusInternalServerError)
      | None =>
        err <- dynamodb.DeleteItem env id ;;
        match err with
        | Some e => ret (http_Error e http.StatusInternalServerError)
        | None => ret (Response http.StatusNoContent Empty)
        end
      end
    end
  end.

(** The three routes of [routes]. *)
Inductive Route :=
| POST_file (r : Request)
| GET_file (id : string)
| DELETE_file (id : string).

Definition serve (s : Service) (env : Env) (rt : Route) : M Outcome :=
  match rt with
  | POST_file r => CreateFile s env r
  | GET_file id => GetFile s env id
  | DELETE_file id => DeleteFile s env id
  end.


(** The states of the stores that the service can bring about, starting
    from an empty bucket and an empty table. *)
Inductive reachable (s : Service) : World -> Prop :=
| reachable_empty : reachable s emptyWorld
| reachable_serve env rt w :
    reachable s w -> reachable s (snd (serve s env rt w)).

Definition status (o : Outcome) : option Z :=
  match o with
  | Response code _ => Some code
  | Panic _ => None
  end.

(** *** Concrete requests and environments *)

(** The service of [main]. *)
Definition svc : Service :=
  {| fileStorageBucket := "file-storage-bucket";
     dbFileTableName := "file-storage-table" |}.

(** Every remote call succeeds. *)
Definition quiet : Env :=
  {| readErr := None; copyErr := None;
     putObjectErr := None; deleteObjectErr := None;
     putItemErr := None; getItemErr := None; deleteItemErr := None;
     queryErr := None;
     presign := fun bucket key =>
       Ok ("http://localstack:4566/" +:+ bucket +:+ "/" +:+ key +:+ "?X-Amz-Expires=900");
     rander := fun n => byte_of_Z (Z.of_nat n * 17);
     now := time.Build_Time 2024 11 27 12 25 35 0 |}.

(** The start of a JFIF file. *)
Definition jpeg : list byte :=
  [xff; xd8; xff; xe0; x00; x10] ++ bytes_of_string "JFIF".

Definition upload (name : string) (bytes : list byte) : Request :=
  {| FormFile := Ok ({| content := bytes; offset := O |}, {| Filename := name |}) |}.

(** As [quiet], with the given outcomes of the fallible calls. *)
Definition faulty (read copy putObject deleteObject putItem getItem
                   deleteItem query : error) : Env :=
  {| readErr := read; copyErr := copy;
     putObjectErr := putObject; deleteObjectErr := deleteObject;
     putItemErr := putItem; getItemErr := getItem;
     deleteItemErr := deleteItem; queryErr := query;
     presign := presign quiet; rander := rander quiet; now := now quiet |}.

(** A later request: other random bytes, a later clock reading. *)
Definition later : Env :=
  {| readErr := None; copyErr := None;
     putObjectErr := None; deleteObjectErr := None;
     putItemErr := None; getItemErr := None; deleteItemErr := None;
     queryErr := None;
     presign := presign quiet;
     rander := fun n => byte_of_Z (Z.of_nat n * 17 + 1);
     now := time.Build_Time 2024 11 27 12 31 2 0 |}.

(** The record and the stores left by a first upload of [jpeg]. *)
Definition photo : FileMetadata :=
  {| ID := "00112233-4455-4677-8899-aabbccddeeff";
     Hash := "45ae705277879f7f01d778f7c95a065bb0c06ab9936cf24307f375211fee13d1";
     Extension := ".jpg";
     CreatedAt := "2024-11-27T12:25:35Z";
     UpdatedAt := "2024-11-27T12:25:35Z" |}.

Definition stored : World :=
  {| objects := {[ "00112233-4455-4677-8899-aabbccddeeff.jpg" := jpeg ]};
     items := {[ "00112233-4455-4677-8899-aabbccddeeff" := photo ]};
     calls := [] |}.

(** The 512-byte buffer that [validateFile] hands to the sniffer for a
    file read from its start: the leading bytes of the file, zero-padded. *)
Definition sniffBuffer (bytes : list byte) : list byte :=
  take 512 bytes ++ repeat x00 (512 - length (take 512 bytes)).

(** An upload that passes both checks of [validateFile]. *)
Definition jpegUpload (name : string) (bytes : list byte) : Prop :=
  (filepath.Ext name = ".jpeg" \/ filepath.Ext name = ".jpg") /\
  http.DetectContentType (sniffBuffer bytes) = "image/jpeg".

(** The record that [CreateFile] builds for a new content. *)
Definition newRecord (env : Env) (ext : string) (fileBuffer : list byte)
  : FileMetadata :=
  {| ID := uuid.String (uuid.New (rander env));
     Hash := calculateHash fileBuffer;
     Extension := ext;
     CreatedAt := time.Format_RFC3339 (now env);
     UpdatedAt := time.Format_RFC3339 (now env) |}.

(** The object key of a record: [id + extension]. *)
Definition objectKeyOf (md : FileMetadata) : string := ID md +:+ Extension md.

(** The answer of a handler once the signing request has returned. *)
Definition signedReply (s : Service) (env : Env) (code : Z) (md : FileMetadata)
  : Outcome :=
  match presign env (fileStorageBucket s) (objectKeyOf md) with
  | Ok url =>
      Encode code {| Metadata := md;
                     PresignedURL := replaceLocalstackHostWithLocalhost url |}
  | Err e => http_Error e http.StatusInternalServerError
  end.

(** The lines of [CreateFile] that follow the buffering of the body, from
    [hash := calculateHash(...)] to the end. *)
Definition storeBuffered (s : Service) (env : Env) (ext : string)
    (fileBuffer : list byte) : M Outcome :=
  let hash := calculateHash fileBuffer in
  q <- getFileIDByHash env hash ;;
  match q with
  | Err e => ret (http_Error e http.StatusInternalServerError)
  | Ok (Some existingFile) =>
    p <- generatePresignedURL s env (ID existingFile +:+ Extension existingFile) ;;
    match p with
    | Err e => ret (http_Error e http.StatusInternalServerError)
    | Ok presignedURL =>
      ret (Encode http.StatusOK
             {| Metadata := existingFile; PresignedURL := presignedURL |})
    end
  | Ok None =>
    let id := uuid.String (uuid.New (rander env)) in
    let objectKey := id +:+ ext in
    let now := time.Format_RFC3339 (now env) in
    let metadata :=
      {| ID := id; Hash := hash; Extension := ext;
         CreatedAt := now; UpdatedAt := now |} in
    err <- uploadToS3 env objectKey fileBuffer ;;
    match err with
    | Some e => ret (http_Error e http.StatusInternalServerError)
    | None =>
      err <- saveMetadataToDB env metadata ;;
      match err with
      | Some e => ret (http_Error e http.StatusInternalServerError)
      | None =>
        p <- generatePresignedURL s env objectKey ;;
        match p with
        | Err e => ret (http_Error e http.StatusInternalServerError)
        | Ok presignedURL =>
          ret (Encode http.StatusCreated
                 {| Metadata := metadata; PresignedURL := presignedURL |})
        end
      end
    end
  end.

(** The world after further calls and with the given stores. *)
Definition after (w : World) (objs : gmap string (list byte))
    (tbl : gmap string FileMetadata) (issued : list Call) : World :=
  {| objects := objs; items := tbl; calls := calls w ++ issued |}.

(** A character of [hex.hextable]: a decimal digit or a letter [a] to [f]. *)
Definition lowerHex (c : ascii) : Prop :=
  In c (list_ascii_of_string hex.hextable).

(** A record with a non-empty [ID] and a non-empty [Hash]. *)
Definition keyed (md : FileMetadata) : Prop := ID md <> EmptyString /\ Hash md <> EmptyString.

(** No fallible call of the request fails. *)
Definition noFaults (env : Env) : Prop :=
  readErr env = None /\ copyErr env = None /\
  putObjectErr env = None /\ deleteObjectErr env = None /\
  putItemErr env = None /\ getItemErr env = None /\
  deleteItemErr env = None /\ queryErr env = None.

(** A remote call that only reads. *)
Definition reads (c : Call) : Prop :=
  match c with
  | GetItem _ | Query _ | PresignGetObject _ => True
  | PutObject _ | DeleteObject _ | PutItem _ | DeleteItem _ => False
  end.

(** *** Notions used by the further properties *)

(** [strings.Contains(s, sub)]: [sub] starts at some position of [s]. *)
Fixpoint occurs (sub s : string) : bool :=
  String.prefix sub s ||
  match s with
  | EmptyString => false
  | String _ rest => occurs sub rest
  end.

(** The endpoint that the store clients of [main] are configured with, and
    the host that [replaceLocalstackHostWithLocalhost] puts in its place. *)
Definition localstackHost : string := "http://localstack:4566".
Definition localhostHost : string := "http://localhost:4566".

(** The shape of a record that [CreateFile] builds. *)
Definition wellFormed (md : FileMetadata) : Prop :=
  String.length (ID md) = 36%nat /\
  String.length (Hash md) = 64%nat /\
  Forall lowerHex (list_ascii_of_string (Hash md)) /\
  (Extension md = ".jpeg" \/ Extension md = ".jpg") /\
  CreatedAt md = UpdatedAt md.

(** Every record of the table has its object in the bucket, and the hash
    of the record is the hash of the bytes of that object. *)
Definition intact (w : World) : Prop :=
  forall id md, items w !! id = Some md ->
    exists bytes, objects w !! (ID md +:+ Extension md) = Some bytes /\
                  Hash md = calculateHash bytes.

(** The states reached from empty stores by requests during which no
    metadata delete fails and the UUID generator returns an identifier
    that is not in the table. *)
Inductive servedCleanly (s : Service) : World -> Prop :=
| servedCleanly_empty : servedCleanly s emptyWorld
| servedCleanly_serve env rt w :
    servedCleanly s w ->
    deleteItemErr env = None ->
    items w !! uuid.String (uuid.New (rander env)) = None ->
    servedCleanly s (snd (serve s env rt w)).

(** * Properties *)

Arguments calculateHash : simpl never.
Arguments uuid.String : simpl never.
Arguments uuid.New : simpl never.
Arguments time.Format_RFC3339 : simpl never.
Arguments filepath.Ext : simpl never.
Arguments http.DetectContentType : simpl never.
Arguments replaceLocalstackHostWithLocalhost : simpl never.
Arguments String.eqb : simpl never.

(** Unfolding of the store clients and of the state-passing layer. *)
Ltac run_store :=
  unfold saveMetadataToDB, uploadToS3, getFileIDByHash, generatePresignedURL,
    dynamodb.PutItem, dynamodb.Query, dynamodb.DeleteItem, dynamodb.GetItem,
    s3.PutObject, s3.DeleteObject, s3.Presign,
    bind, ret, issue, setObjects, setItems, getItems in *.

(** Case analysis on an innermost scrutinee of the goal. *)
Ltac split_match :=
  match goal with
  | |- context [match ?x with _ => _ end] =>
      lazymatch x with
      | context [match _ with _ => _ end] => fail
      | _ => destruct x eqn:?
      end
  end.

(** Case analysis on the conditions of [sig.match] in a hypothesis that
    gives its result. *)
Ltac refute_sig H :=
  unfold http.match_ in H;
  repeat match type of H with
         | context [if ?c then _ else _] => destruct c eqn:?
         end;
  try discriminate H.

(** ** The library models on known inputs *)

(** Known answers (FIPS 180-4 examples). *)
Example sha256_empty :
  hex.EncodeToString (sha256.Sum256 []) =
  "e3b0c44298fc1c149afbf4c8996fb92427ae41e4649b934ca495991b7852b855".
Proof. vm_compute. reflexivity. Qed.

Example sha256_abc :
  hex.EncodeToString (sha256.Sum256 (bytes_of_string "abc")) =
  "ba7816bf8f01cfea414140de5dae2223b00361a396177a9cb410ff61f20015ad".
Proof. vm_compute. reflexivity. Qed.

Example sha256_two_blocks :
  hex.EncodeToString (sha256.Sum256 (bytes_of_string
    "abcdbcdecdefdefgefghfghighijhijkijkljklmklmnlmnomnopnopq")) =
  "248d6a61d20638b8e5c026930c3e6039a33ce45964ff2167f6ecedd419db06c1".
Proof. vm_compute. reflexivity. Qed.

(** Message lengths around the padding boundary of a block. *)
Example sha256_a55 :
  hex.EncodeToString (sha256.Sum256 (repeat "a"%byte 55)) =
  "9f4390f8d30c2dd92ec9f095b65e2b9ae9b0a925a5258e241c9f1e910f734318".
Proof. vm_compute. reflexivity. Qed.

Example sha256_a56 :
  hex.EncodeToString (sha256.Sum256 (repeat "a"%byte 56)) =
  "b35439a4ac6f0948b6d6f9e3c6af0f5f590ce20f1bde7090ef7970686ec6738a".
Proof. vm_compute. reflexivity. Qed.

Example sha256_a64 :
  hex.EncodeToString (sha256.Sum256 (repeat "a"%byte 64)) =
  "ffe054fe7ae0cb6dc65c3af9b61d5209f439851db43d0ba5997337df154668eb".
Proof. vm_compute. reflexivity. Qed.

Example Ext_last_element : filepath.Ext "a/b.c/photo" = EmptyString.
Proof. reflexivity. Qed.

Example Ext_last_dot : filepath.Ext "x.tar.jpg" = ".jpg".
Proof. reflexivity. Qed.

Example Ext_keeps_case : filepath.Ext "photo.JPG" = ".JPG".
Proof. reflexivity. Qed.

Example sniff_jpeg : http.DetectContentType jpeg = "image/jpeg".
Proof. reflexivity. Qed.

Example sniff_gif :
  http.DetectContentType (bytes_of_string "GIF89a") = "image/gif".
Proof. reflexivity. Qed.

Example uuid_layout :
  uuid.String (uuid.New (rander quiet)) = "00112233-4455-4677-8899-aabbccddeeff".
Proof. reflexivity. Qed.

Example rfc3339_utc : time.Format_RFC3339 (now quiet) = "2024-11-27T12:25:35Z".
Proof. reflexivity. Qed.

Example rewrite_host :
  replaceLocalstackHostWithLocalhost "http://localstack:4566/b/k?X" =
  "http://localhost:4566/b/k?X".
Proof. reflexivity. Qed.

(** ** Lengths of the digest and of identifiers *)

Lemma EncodeToString_length src :
  String.length (hex.EncodeToString src) = (2 * length src)%nat.
Proof.
  induction src as [|v rest IH]; simpl; [reflexivity|].
  rewrite IH. lia.
Qed.

Lemma checkSum_length d : length (sha256.checkSum d) = sha256.Size.
Proof. reflexivity. Qed.

Lemma Sum256_length data : length (sha256.Sum256 data) = 32%nat.
Proof. unfold sha256.Sum256. apply checkSum_length. Qed.

Lemma calculateHash_length data : String.length (calculateHash data) = 64%nat.
Proof.
  unfold calculateHash. rewrite EncodeToString_length, Sum256_length.
  reflexivity.
Qed.

Lemma eqb_empty_length s : (0 < String.length s)%nat -> String.eqb s EmptyString = false.
Proof. destruct s; simpl; [lia|reflexivity]. Qed.

Lemma calculateHash_not_empty data : String.eqb (calculateHash data) EmptyString = false.
Proof. apply eqb_empty_length. rewrite calculateHash_length. lia. Qed.

Lemma append_length (a b : string) :
  String.length (a +:+ b) = (String.length a + String.length b)%nat.
Proof. induction a as [|c a IH]; simpl; [reflexivity|]. now rewrite IH. Qed.

Lemma uuid_String_not_empty u : String.eqb (uuid.String u) EmptyString = false.
Proof.
  apply eqb_empty_length. unfold uuid.String.
  rewrite !append_length. simpl. lia.
Qed.

(** ** Looking a record up *)

Lemma retrieveMetadataFromDB_found env id md w :
  getItemErr env = None -> items w !! id = Some md ->
  retrieveMetadataFromDB env id w =
  ((Some md, None),
   {| objects := objects w; items := items w; calls := calls w ++ [GetItem id] |}).
Proof.
  intros Hget Hid. unfold retrieveMetadataFromDB, dynamodb.GetItem, bind, issue.
  rewrite Hget. cbn. rewrite Hid. reflexivity.
Qed.

Lemma retrieveMetadataFromDB_missing env id w :
  getItemErr env = None -> items w !! id = None ->
  retrieveMetadataFromDB env id w =
  ((None, None),
   {| objects := objects w; items := items w; calls := calls w ++ [GetItem id] |}).
Proof.
  intros Hget Hid. unfold retrieveMetadataFromDB, dynamodb.GetItem, bind, issue.
  rewrite Hget. cbn. rewrite Hid. reflexivity.
Qed.

Lemma retrieveMetadataFromDB_failed env id e w :
  getItemErr env = Some e ->
  retrieveMetadataFromDB env id w =
  ((None, Some e),
   {| objects := objects w; items := items w; calls := calls w ++ [GetItem id] |}).
Proof.
  intros Hget. unfold retrieveMetadataFromDB, dynamodb.GetItem, bind, issue.
  rewrite Hget. reflexivity.
Qed.

(** The lookup never writes. *)
Lemma retrieveMetadataFromDB_frame env id w :
  snd (retrieveMetadataFromDB env id w) =
  {| objects := objects w; items := items w; calls := calls w ++ [GetItem id] |}.
Proof.
  unfold retrieveMetadataFromDB, dynamodb.GetItem, bind, issue.
  destruct (getItemErr env); cbn; [reflexivity|].
  destruct (items w !! id); reflexivity.
Qed.

Lemma generatePresignedURL_frame s env key w :
  snd (generatePresignedURL s env key w) =
  {| objects := objects w; items := items w;
     calls := calls w ++ [PresignGetObject key] |}.
Proof.
  unfold generatePresignedURL, s3.Presign, bind, issue. cbn.
  destruct (presign env (fileStorageBucket s) key); reflexivity.
Qed.

(** ** Delete of an identifier that has no record (C1) *)

(** The sibling handler answers 404 for an identifier without a record. *)
Lemma GetFile_missing_record s env id w :
  getItemErr env = None -> items w !! id = None ->
  fst (GetFile s env id w) =
  Response http.StatusNotFound (Text "file not found").
Proof.
  intros Hget Hid. unfold GetFile, bind.
  rewrite (retrieveMetadataFromDB_missing _ _ _ Hget Hid). reflexivity.
Qed.

(** A failed lookup is what [DeleteFile] answers with 404. *)
Lemma DeleteFile_lookup_failed s env id e w :
  getItemErr env = Some e ->
  fst (DeleteFile s env id w) = http_Error e http.StatusNotFound.
Proof.
  intros Hget. unfold DeleteFile, bind.
  rewrite (retrieveMetadataFromDB_failed _ _ _ _ Hget). reflexivity.
Qed.

(** C1: when the lookup of a DELETE succeeds and finds no record, the
    handler dereferences the nil record and panics: no response (so no
    404) is written.  Neither delete is issued and both stores are as they
    were. *)
Theorem DeleteFile_missing_record s env id w :
  getItemErr env = None -> items w !! id = None ->
  DeleteFile s env id w =
  (Panic nil_dereference,
   {| objects := objects w; items := items w; calls := calls w ++ [GetItem id] |})
  /\ status (fst (DeleteFile s env id w)) <> Some http.StatusNotFound.
Proof.
  intros Hget Hid. unfold DeleteFile, bind.
  rewrite (retrieveMetadataFromDB_missing _ _ _ Hget Hid). cbn.
  split; [reflexivity|discriminate].
Qed.

Lemma DeleteFile_missing_record_witness :
  DeleteFile svc quiet "17f6c3d2" emptyWorld =
  (Panic nil_dereference,
   {| objects := ∅; items := ∅; calls := [GetItem "17f6c3d2"] |})
  /\ status (fst (DeleteFile svc quiet "17f6c3d2" emptyWorld))
     <> Some http.StatusNotFound.
Proof.
  apply (DeleteFile_missing_record svc quiet "17f6c3d2" emptyWorld);
    reflexivity.
Defined.

(** ** Retrieve writes nothing (C10) *)

Lemma GetFile_items s env id w :
  items (snd (GetFile s env id w)) = items w.
Proof.
  unfold GetFile, bind.
  pose proof (retrieveMetadataFromDB_frame env id w) as Hframe.
  destruct (retrieveMetadataFromDB env id w) as [[[md|] [e|]] w1];
    cbn in Hframe; subst w1; try reflexivity.
  pose proof (generatePresignedURL_frame s env (ID md +:+ Extension md)
                {| objects := objects w; items := items w;
                   calls := calls w ++ [GetItem id] |}) as Hsign.
  destruct (generatePresignedURL s env _ _) as [[url|e] w2].
  all: cbn in Hsign; subst w2; reflexivity.
Qed.

(** C10: whatever its outcome, a GET leaves the bucket and the table as
    they were, and the calls it issues are reads only (the point lookup
    and, when a record is found, the signing request). *)
Theorem GetFile_writes_nothing s env id w :
  objects (snd (GetFile s env id w)) = objects w /\
  items (snd (GetFile s env id w)) = items w /\
  exists issued,
    calls (snd (GetFile s env id w)) = calls w ++ issued /\
    Forall reads issued.
Proof.
  unfold GetFile, bind.
  pose proof (retrieveMetadataFromDB_frame env id w) as Hframe.
  destruct (retrieveMetadataFromDB env id w) as [[metadata err] w1].
  cbn in Hframe. subst w1.
  destruct err as [e|].
  { cbn. repeat split. exists [GetItem id]. split; [reflexivity|].
    repeat constructor. }
  destruct metadata as [md|].
  2:{ cbn. repeat split. exists [GetItem id]. split; [reflexivity|].
      repeat constructor. }
  set (w1 := {| objects := objects w; items := items w;
                calls := calls w ++ [GetItem id] |}).
  pose proof (generatePresignedURL_frame s env (ID md +:+ Extension md) w1)
    as Hsign.
  destruct (generatePresignedURL s env (ID md +:+ Extension md) w1)
    as [p w2].
  cbn in Hsign. subst w2.
  assert (Hcalls : calls w1 ++ [PresignGetObject (ID md +:+ Extension md)] =
                   calls w ++ [GetItem id; PresignGetObject (ID md +:+ Extension md)]).
  { unfold w1. cbn. rewrite <- app_assoc. reflexivity. }
  destruct p as [url|e]; cbn; repeat split;
    (eexists; split; [exact Hcalls | repeat constructor]).
Qed.

(** ** Delete of a stored record (C7) *)

(** C7: when the lookup finds a record, the object delete is issued first
    and the item delete only after it; a failure of either gives 500; and
    when the object delete has succeeded and the item delete fails, the
    table is exactly as before (the record survives), the object stays
    deleted and no further call is made. *)
Theorem DeleteFile_found s env id md w :
  getItemErr env = None -> items w !! id = Some md ->
  let key := ID md +:+ Extension md in
  let o := fst (DeleteFile s env id w) in
  let w' := snd (DeleteFile s env id w) in
  (exists after,
     calls w' = calls w ++ GetItem id :: DeleteObject key :: after /\
     (after = [] \/ after = [DeleteItem id])) /\
  (forall e, deleteObjectErr env = Some e ->
     o = http_Error e http.StatusInternalServerError /\
     calls w' = calls w ++ [GetItem id; DeleteObject key] /\
     objects w' = objects w /\ items w' = items w) /\
  (forall e, deleteObjectErr env = None -> deleteItemErr env = Some e ->
     o = http_Error e http.StatusInternalServerError /\
     calls w' = calls w ++ [GetItem id; DeleteObject key; DeleteItem id] /\
     objects w' = delete key (objects w) /\
     items w' = items w /\ items w' !! id = Some md) /\
  (deleteObjectErr env = None -> deleteItemErr env = None ->
     o = Response http.StatusNoContent Empty /\
     calls w' = calls w ++ [GetItem id; DeleteObject key; DeleteItem id] /\
     objects w' = delete key (objects w) /\
     items w' = delete id (items w)).
Proof.
  intros Hget Hid key o w'. subst o w'.
  unfold DeleteFile, bind.
  rewrite (retrieveMetadataFromDB_found _ _ _ _ Hget Hid).
  unfold s3.DeleteObject, dynamodb.DeleteItem, bind, issue, setObjects,
    setItems, ret. cbn. fold key.
  destruct (deleteObjectErr env) as [e1|]; cbn.
  { rewrite <- !app_assoc. cbn.
    split; [exists []; auto|].
    split; [intros e [= <-]; auto|].
    split; [discriminate|discriminate]. }
  destruct (deleteItemErr env) as [e2|]; cbn; rewrite <- !app_assoc; cbn.
  - split; [exists [DeleteItem id]; auto|].
    split; [discriminate|].
    split; [intros e _ [= <-]; auto 6|discriminate].
  - split; [exists [DeleteItem id]; auto|].
    split; [discriminate|].
    split; [discriminate|auto].
Qed.

Lemma DeleteFile_found_witness :
  fst (DeleteFile svc
         (faulty None None None None None None (Some "throttled") None)
         (ID photo) stored)
  = http_Error "throttled" http.StatusInternalServerError /\
  items (snd (DeleteFile svc
         (faulty None None None None None None (Some "throttled") None)
         (ID photo) stored)) !! ID photo = Some photo /\
  objects (snd (DeleteFile svc
         (faulty None None None None None None (Some "throttled") None)
         (ID photo) stored)) = ∅.
Proof.
  destruct (DeleteFile_found svc
              (faulty None None None None None None (Some "throttled") None)
              (ID photo) photo stored eq_refl eq_refl)
    as (_ & _ & Hitem & _).
  destruct (Hitem "throttled" eq_refl eq_refl) as (Ho & _ & Hobj & _ & Hrec).
  split; [exact Ho|]. split; [exact Hrec|].
  rewrite Hobj. vm_compute. reflexivity.
Defined.

(** ** Persisting a record (C8) *)

Lemma saveMetadataToDB_rejects env md w :
  ID md = EmptyString \/ Hash md = EmptyString ->
  saveMetadataToDB env md w = (Some "metadata must have non-empty ID and Hash", w).
Proof.
  intros [H|H]; unfold saveMetadataToDB; rewrite H.
  - reflexivity.
  - rewrite orb_true_r. reflexivity.
Qed.

(** What a write of a record can do to the table. *)
Lemma saveMetadataToDB_items env md w :
  items (snd (saveMetadataToDB env md w)) = items w \/
  (keyed md /\ fst (saveMetadataToDB env md w) = None /\
   items (snd (saveMetadataToDB env md w)) = <[ID md := md]> (items w)).
Proof.
  unfold saveMetadataToDB.
  destruct (String.eqb (ID md) EmptyString) eqn:Hid; cbn; [now left|].
  destruct (String.eqb (Hash md) EmptyString) eqn:Hh; cbn; [now left|].
  run_store. destruct (putItemErr env); cbn; [now left|].
  right. repeat split; intros E; rewrite E in *; discriminate.
Qed.

(** ** Validation *)

Lemma eqb_neq (a b : string) : String.eqb a b = false <-> a <> b.
Proof. apply String.eqb_neq. Qed.

Lemma validateFile_content env f name :
  content (snd (validateFile env f name)) = content f.
Proof.
  unfold validateFile, Read.
  repeat (split_match; cbn); reflexivity.
Qed.

(** A wrong extension is refused before the file is touched. *)
Lemma validateFile_extension env f name :
  filepath.Ext name <> ".jpeg" -> filepath.Ext name <> ".jpg" ->
  validateFile env f name = (Err "only JPEG files are allowed", f).
Proof.
  intros H1 H2. unfold validateFile.
  apply eqb_neq in H1, H2. rewrite H1, H2. reflexivity.
Qed.

Lemma sniff_zeroes :
  http.DetectContentType (repeat x00 512) <> "image/jpeg".
Proof. vm_compute. discriminate. Qed.

Lemma jpegUpload_not_empty name bytes : jpegUpload name bytes -> bytes <> [].
Proof.
  intros [_ Hsniff] ->. apply sniff_zeroes. exact Hsniff.
Qed.

Lemma validateFile_accepts env name bytes :
  readErr env = None -> jpegUpload name bytes ->
  validateFile env {| content := bytes; offset := O |} name =
  (Ok (filepath.Ext name),
   {| content := bytes; offset := length (take 512 bytes) |}).
Proof.
  intros Hread Hjpeg. pose proof (jpegUpload_not_empty _ _ Hjpeg) as Hne.
  destruct Hjpeg as [Hext Hsniff].
  assert (Hgate : negb (String.eqb (filepath.Ext name) ".jpeg")
                  && negb (String.eqb (filepath.Ext name) ".jpg") = false).
  { destruct Hext as [-> | ->]; reflexivity. }
  unfold validateFile, Read. rewrite Hgate, Hread.
  change (drop (offset {| content := bytes; offset := O |})
            (content {| content := bytes; offset := O |})) with bytes.
  destruct bytes as [|b bytes]; [congruence|].
  fold (sniffBuffer (b :: bytes)). rewrite Hsniff. reflexivity.
Qed.

(** ** The paths of an upload *)

Lemma CreateFile_bad_form s env r e w :
  FormFile r = Err e ->
  CreateFile s env r w = (http_Error e http.StatusBadRequest, w).
Proof. intros H. unfold CreateFile. rewrite H. reflexivity. Qed.

Lemma CreateFile_refused s env r f hd e f1 w :
  FormFile r = Ok (f, hd) ->
  validateFile env f (Filename hd) = (Err e, f1) ->
  CreateFile s env r w = (http_Error e http.StatusUnsupportedMediaType, w).
Proof. intros H Hv. unfold CreateFile. rewrite H, Hv. reflexivity. Qed.

Lemma CreateFile_copy_failed s env r f hd ext f1 e w :
  FormFile r = Ok (f, hd) ->
  validateFile env f (Filename hd) = (Ok ext, f1) ->
  copyErr env = Some e ->
  CreateFile s env r w = (http_Error e http.StatusInternalServerError, w).
Proof.
  intros H Hv Hc. unfold CreateFile, Copy. rewrite H, Hv, Hc. reflexivity.
Qed.

(** Once validated, the whole body is buffered, whatever the sniff read
    has consumed. *)
Lemma CreateFile_buffered s env r f hd ext f1 w :
  FormFile r = Ok (f, hd) ->
  validateFile env f (Filename hd) = (Ok ext, f1) ->
  copyErr env = None ->
  CreateFile s env r w = storeBuffered s env ext (content f) w.
Proof.
  intros H Hv Hc. unfold CreateFile, Copy. rewrite H, Hv, Hc.
  pose proof (validateFile_content env f (Filename hd)) as Hcontent.
  rewrite Hv in Hcontent. cbn in Hcontent.
  cbn [SeekStart content offset]. rewrite Hcontent. reflexivity.
Qed.

Lemma storeBuffered_query_failed s env ext data e w :
  queryErr env = Some e ->
  storeBuffered s env ext data w =
  (http_Error ("failed to query DynamoDB: " +:+ e) http.StatusInternalServerError,
   after w (objects w) (items w) [Query (calculateHash data)]).
Proof.
  intros Hq. unfold storeBuffered, getFileIDByHash.
  rewrite calculateHash_not_empty. run_store. rewrite Hq. reflexivity.
Qed.

Lemma storeBuffered_hit s env ext data existing w :
  queryErr env = None ->
  head (dynamodb.matching (calculateHash data) (items w)) = Some existing ->
  storeBuffered s env ext data w =
  (signedReply s env http.StatusOK existing,
   after w (objects w) (items w)
     [Query (calculateHash data); PresignGetObject (objectKeyOf existing)]).
Proof.
  intros Hq Hhead. unfold storeBuffered, getFileIDByHash.
  rewrite calculateHash_not_empty. run_store. rewrite Hq. cbn.
  apply head_Some in Hhead as [rest ->]. cbn.
  unfold signedReply, after, objectKeyOf. cbn. rewrite <- app_assoc.
  destruct (presign env _ _); reflexivity.
Qed.

Lemma storeBuffered_miss s env ext data w :
  queryErr env = None ->
  dynamodb.matching (calculateHash data) (items w) = [] ->
  let md := newRecord env ext data in
  let key := objectKeyOf md in
  storeBuffered s env ext data w =
  match putObjectErr env, putItemErr env with
  | Some e, _ =>
      (http_Error e http.StatusInternalServerError,
       after w (objects w) (items w) [Query (Hash md); PutObject key])
  | None, Some e =>
      (http_Error ("failed to save metadata to DynamoDB: " +:+ e)
         http.StatusInternalServerError,
       after w (<[key := data]> (objects w)) (items w)
         [Query (Hash md); PutObject key; PutItem (ID md)])
  | None, None =>
      (signedReply s env http.StatusCreated md,
       after w (<[key := data]> (objects w)) (<[ID md := md]> (items w))
         [Query (Hash md); PutObject key; PutItem (ID md); PresignGetObject key])
  end.
Proof.
  intros Hq Hnone md key. unfold storeBuffered, getFileIDByHash.
  rewrite calculateHash_not_empty. run_store. rewrite Hq. cbn.
  rewrite Hnone. cbn.
  fold (newRecord env ext data). fold md.
  change (uuid.String (uuid.New (rander env)) +:+ ext) with key.
  destruct (putObjectErr env) as [e|]; cbn.
  { unfold after. cbn. rewrite <- app_assoc. reflexivity. }
  change (ID md) with (uuid.String (uuid.New (rander env))).
  change (Hash md) with (calculateHash data).
  rewrite uuid_String_not_empty, calculateHash_not_empty. cbn.
  destruct (putItemErr env) as [e|]; cbn.
  { unfold after. cbn. rewrite <- !app_assoc. reflexivity. }
  unfold signedReply, after. cbn. rewrite <- !app_assoc. fold key.
  change (objectKeyOf md) with key.
  destruct (presign env _ _); reflexivity.
Qed.

(** ** The lookup by hash *)

Lemma matching_elem h (tbl : gmap string FileMetadata) md :
  md ∈ dynamodb.matching h tbl <-> Hash md = h /\ exists id, tbl !! id = Some md.
Proof.
  unfold dynamodb.matching. rewrite list_elem_of_filter, list_elem_of_fmap.
  split.
  - intros [Hh [[id md'] [-> Hin]]]. apply elem_of_map_to_list in Hin.
    split; [exact Hh|]. exists id. exact Hin.
  - intros [Hh [id Hid]]. split; [exact Hh|].
    exists (id, md). split; [reflexivity|].
    apply elem_of_map_to_list. exact Hid.
Qed.

Lemma matching_none h (tbl : gmap string FileMetadata) :
  (forall id md, tbl !! id = Some md -> Hash md <> h) ->
  dynamodb.matching h tbl = [].
Proof.
  intros Hfresh. apply elem_of_nil_inv. intros md Hin.
  apply matching_elem in Hin as [Hh [id Hid]].
  exact (Hfresh id md Hid Hh).
Qed.

Lemma matching_some h (tbl : gmap string FileMetadata) id md :
  tbl !! id = Some md -> Hash md = h ->
  exists existing, head (dynamodb.matching h tbl) = Some existing.
Proof.
  intros Hid Hh.
  assert (Hin : md ∈ dynamodb.matching h tbl).
  { apply matching_elem. eauto. }
  destruct (dynamodb.matching h tbl) as [|x l].
  - apply elem_of_nil in Hin. contradiction.
  - exists x. reflexivity.
Qed.

Lemma matching_head h (tbl : gmap string FileMetadata) existing :
  head (dynamodb.matching h tbl) = Some existing ->
  Hash existing = h /\ exists id, tbl !! id = Some existing.
Proof.
  intros Hhead. apply matching_elem.
  apply head_Some_elem_of. exact Hhead.
Qed.

(** ** An upload of known content (C3) *)

(** C3: when the table already holds a record with the hash of the
    uploaded bytes, the upload issues the query and the signing request
    and nothing else: the bucket and the table are as before.  The answer
    carries a stored record with that hash, as it is stored, and, when the
    signer returns a URL for the key of that record, the status is 200
    with that URL. *)
Theorem CreateFile_dedup_hit s env name bytes w id0 known :
  readErr env = None -> copyErr env = None -> queryErr env = None ->
  jpegUpload name bytes ->
  items w !! id0 = Some known -> Hash known = calculateHash bytes ->
  exists id existing,
    items w !! id = Some existing /\
    Hash existing = calculateHash bytes /\
    objects (snd (CreateFile s env (upload name bytes) w)) = objects w /\
    items (snd (CreateFile s env (upload name bytes) w)) = items w /\
    calls (snd (CreateFile s env (upload name bytes) w)) =
      calls w ++ [Query (calculateHash bytes);
                  PresignGetObject (ID existing +:+ Extension existing)] /\
    (forall url,
       presign env (fileStorageBucket s) (ID existing +:+ Extension existing)
         = Ok url ->
       fst (CreateFile s env (upload name bytes) w) =
       Response http.StatusOK
         (JSON {| Metadata := existing;
                  PresignedURL := replaceLocalstackHostWithLocalhost url |})) /\
    (forall e,
       presign env (fileStorageBucket s) (ID existing +:+ Extension existing)
         = Err e ->
       fst (CreateFile s env (upload name bytes) w) =
       http_Error e http.StatusInternalServerError).
Proof.
  intros Hread Hcopy Hquery Hjpeg Hknown Hhash.
  destruct (matching_some _ _ _ _ Hknown Hhash) as [existing Hhead].
  destruct (matching_head _ _ _ Hhead) as [Hh [id Hid]].
  exists id, existing.
  rewrite (CreateFile_buffered s env (upload name bytes) _ _ _ _ w eq_refl
             (validateFile_accepts env name bytes Hread Hjpeg) Hcopy).
  cbn [content].
  rewrite (storeBuffered_hit s env _ bytes existing w Hquery Hhead).
  cbn [fst snd after objects items calls].
  repeat split; try assumption; try reflexivity.
  - intros url Hurl. unfold signedReply, objectKeyOf. rewrite Hurl. reflexivity.
  - intros e He. unfold signedReply, objectKeyOf. rewrite He. reflexivity.
Qed.

Lemma CreateFile_dedup_hit_witness :
  objects (snd (CreateFile svc quiet (upload "again.jpeg" jpeg) stored))
    = objects stored /\
  items (snd (CreateFile svc quiet (upload "again.jpeg" jpeg) stored))
    = items stored /\
  fst (CreateFile svc quiet (upload "again.jpeg" jpeg) stored) =
  Response http.StatusOK
    (JSON {| Metadata := photo;
             PresignedURL :=
               "http://localhost:4566/file-storage-bucket/00112233-4455-4677-8899-aabbccddeeff.jpg?X-Amz-Expires=900" |}).
Proof.
  assert (Hjpeg : jpegUpload "again.jpeg" jpeg)
    by (split; [left|]; vm_compute; reflexivity).
  assert (Hhash : Hash photo = calculateHash jpeg)
    by (vm_compute; reflexivity).
  destruct (CreateFile_dedup_hit svc quiet "again.jpeg" jpeg stored
              (ID photo) photo eq_refl eq_refl eq_refl Hjpeg eq_refl Hhash)
    as (id & existing & _ & _ & Hobj & Hitems & _ & _ & _).
  split; [exact Hobj|]. split; [exact Hitems|].
  vm_compute. reflexivity.
Defined.

(** ** The hash of a created file (C4) *)

Lemma digit_lowerHex n : lowerHex (hex.digit n).
Proof.
  unfold hex.digit, lowerHex.
  destruct (Z.to_nat n) as [|k]; [cbn; tauto|].
  do 15 (destruct k as [|k]; [cbn; tauto|]).
  cbn. tauto.
Qed.

Lemma EncodeToString_lowerHex src :
  Forall lowerHex (list_ascii_of_string (hex.EncodeToString src)).
Proof.
  induction src as [|v rest IH]; cbn [hex.EncodeToString list_ascii_of_string].
  - constructor.
  - constructor; [apply digit_lowerHex|].
    constructor; [apply digit_lowerHex|exact IH].
Qed.

Lemma signedReply_created s env code md resp :
  signedReply s env code md = Response http.StatusCreated (JSON resp) ->
  code = http.StatusCreated /\ Metadata resp = md.
Proof.
  unfold signedReply, Encode, http_Error.
  destruct (presign env _ _); intros [= -> <-]; split; reflexivity.
Qed.

(** The record of a 201 answer is the one built from the whole body, and
    both writes have been made with it. *)
Lemma CreateFile_created s env r f hd w resp :
  FormFile r = Ok (f, hd) ->
  fst (CreateFile s env r w) = Response http.StatusCreated (JSON resp) ->
  exists ext,
    Metadata resp = newRecord env ext (content f) /\
    items (snd (CreateFile s env r w)) =
      <[ID (Metadata resp) := Metadata resp]> (items w) /\
    objects (snd (CreateFile s env r w)) =
      <[objectKeyOf (Metadata resp) := content f]> (objects w).
Proof.
  intros Hform.
  destruct (validateFile env f (Filename hd)) as [[ext|e] f1] eqn:Hv.
  2:{ rewrite (CreateFile_refused _ _ _ _ _ _ _ w Hform Hv). discriminate. }
  destruct (copyErr env) as [e|] eqn:Hcopy.
  { rewrite (CreateFile_copy_failed _ _ _ _ _ _ _ _ w Hform Hv Hcopy).
    discriminate. }
  rewrite (CreateFile_buffered _ _ _ _ _ _ _ w Hform Hv Hcopy).
  destruct (queryErr env) as [e|] eqn:Hquery.
  { rewrite (storeBuffered_query_failed _ _ _ _ _ w Hquery). discriminate. }
  destruct (head (dynamodb.matching (calculateHash (content f)) (items w)))
    as [existing|] eqn:Hhead.
  { rewrite (storeBuffered_hit _ _ _ _ _ w Hquery Hhead). cbn [fst].
    intros H. apply signedReply_created in H as [H _]. discriminate. }
  apply head_None in Hhead.
  rewrite (storeBuffered_miss s _ ext _ w Hquery Hhead).
  destruct (putObjectErr env); [discriminate|].
  destruct (putItemErr env); [discriminate|].
  cbn [fst snd after items objects].
  intros H. apply signedReply_created in H as [_ ->].
  exists ext. repeat split.
Qed.

(** C4: the [hash] of the record of a created file is the lower-case
    hexadecimal form of the SHA-256 digest of the whole uploaded body, 64
    characters long; the record is in the table under its [id], and the
    object under [id + extension] holds exactly the bytes that were
    hashed. *)
Theorem created_hash_is_sha256 s env r f hd w resp :
  FormFile r = Ok (f, hd) ->
  fst (CreateFile s env r w) = Response http.StatusCreated (JSON resp) ->
  let md := Metadata resp in
  let w' := snd (CreateFile s env r w) in
  Hash md = hex.EncodeToString (sha256.Sum256 (content f)) /\
  String.length (Hash md) = 64%nat /\
  Forall lowerHex (list_ascii_of_string (Hash md)) /\
  items w' !! ID md = Some md /\
  objects w' !! (ID md +:+ Extension md) = Some (content f).
Proof.
  intros Hform Hcreated md w'. subst md w'.
  destruct (CreateFile_created _ _ _ _ _ _ _ Hform Hcreated)
    as (ext & Hmd & Hitems & Hobjects).
  rewrite Hitems, Hobjects.
  assert (Hh : Hash (Metadata resp) = calculateHash (content f))
    by (rewrite Hmd; reflexivity).
  rewrite Hh.
  split; [reflexivity|].
  split; [apply calculateHash_length|].
  split; [apply EncodeToString_lowerHex|].
  split; [apply lookup_insert_eq|].
  apply lookup_insert_eq.
Qed.

Lemma created_hash_is_sha256_witness :
  Hash photo = hex.EncodeToString (sha256.Sum256 jpeg) /\
  String.length (Hash photo) = 64%nat.
Proof.
  assert (Hcreated :
    fst (CreateFile svc quiet (upload "photo.jpg" jpeg) emptyWorld) =
    Response http.StatusCreated
      (JSON {| Metadata := photo;
               PresignedURL :=
                 "http://localhost:4566/file-storage-bucket/00112233-4455-4677-8899-aabbccddeeff.jpg?X-Amz-Expires=900" |}))
    by (vm_compute; reflexivity).
  destruct (created_hash_is_sha256 svc quiet (upload "photo.jpg" jpeg)
              _ _ emptyWorld _ eq_refl Hcreated) as (Hh & Hlen & _).
  split; [exact Hh|exact Hlen].
Defined.

(** ** Statuses of a failed upload (C5) *)

(** A failed read of the sniff buffer is answered with 415, not 500: every
    error of [validateFile] takes the same branch of [CreateFile]. *)
Lemma sniff_read_failure_is_415 :
  readErr (faulty (Some "unexpected EOF") None None None None None None None)
    = Some "unexpected EOF" /\
  jpegUpload "photo.jpg" jpeg /\
  fst (CreateFile svc
         (faulty (Some "unexpected EOF") None None None None None None None)
         (upload "photo.jpg" jpeg) emptyWorld)
  = http_Error "failed to read file: unexpected EOF"
      http.StatusUnsupportedMediaType /\
  status (fst (CreateFile svc
         (faulty (Some "unexpected EOF") None None None None None None None)
         (upload "photo.jpg" jpeg) emptyWorld))
  <> Some http.StatusInternalServerError.
Proof.
  split; [reflexivity|].
  split; [split; [right|]; vm_compute; reflexivity|].
  split; [vm_compute; reflexivity|vm_compute; discriminate].
Qed.

(** An empty body reaches the same branch through the [EOF] of the read. *)
Example empty_body_is_415 :
  fst (CreateFile svc quiet (upload "photo.jpg" []) emptyWorld)
  = http_Error "failed to read file: EOF" http.StatusUnsupportedMediaType.
Proof. vm_compute. reflexivity. Qed.

(** C5, as the code has it: a missing or unparsable form file gives 400;
    a wrong extension, a failed read of the sniff buffer (an empty body
    included) or sniffed content other than JPEG gives 415; after
    validation, a failure of the buffering read, of the query by hash, of
    the object upload or of the metadata write gives 500. *)
Theorem CreateFile_error_statuses s env r w :
  let o := fst (CreateFile s env r w) in
  (forall e, FormFile r = Err e -> o = http_Error e http.StatusBadRequest) /\
  (forall f hd, FormFile r = Ok (f, hd) ->
     let ext := filepath.Ext (Filename hd) in
     (ext <> ".jpeg" -> ext <> ".jpg" ->
        o = http_Error "only JPEG files are allowed"
              http.StatusUnsupportedMediaType) /\
     (ext = ".jpeg" \/ ext = ".jpg" ->
        (forall buffer e f1, Read env f 512 = (buffer, Some e, f1) ->
           o = http_Error ("failed to read file: " +:+ e)
                 http.StatusUnsupportedMediaType) /\
        (forall buffer f1, Read env f 512 = (buffer, None, f1) ->
           http.DetectContentType buffer <> "image/jpeg" ->
           o = http_Error "file is not a valid JPEG image"
                 http.StatusUnsupportedMediaType) /\
        (forall buffer f1, Read env f 512 = (buffer, None, f1) ->
           http.DetectContentType buffer = "image/jpeg" ->
           (forall e, copyErr env = Some e ->
              o = http_Error e http.StatusInternalServerError) /\
           (copyErr env = None ->
              (forall e, queryErr env = Some e ->
                 o = http_Error ("failed to query DynamoDB: " +:+ e)
                       http.StatusInternalServerError) /\
              (queryErr env = None ->
               dynamodb.matching (calculateHash (content f)) (items w) = [] ->
                 (forall e, putObjectErr env = Some e ->
                    o = http_Error e http.StatusInternalServerError) /\
                 (putObjectErr env = None ->
                  forall e, putItemErr env = Some e ->
                    o = http_Error
                          ("failed to save metadata to DynamoDB: " +:+ e)
                          http.StatusInternalServerError)))))).
Proof.
  intros o. subst o. split.
  { intros e H. rewrite (CreateFile_bad_form _ _ _ _ w H). reflexivity. }
  intros f hd Hform ext. split.
  { intros H1 H2.
    rewrite (CreateFile_refused _ _ _ _ _ _ _ w Hform
               (validateFile_extension env f _ H1 H2)).
    reflexivity. }
  intros Hext.
  assert (Hgate : negb (String.eqb ext ".jpeg")
                  && negb (String.eqb ext ".jpg") = false).
  { destruct Hext as [-> | ->]; reflexivity. }
  split; [|split].
  - intros buffer e f1 Hrd.
    erewrite CreateFile_refused; [reflexivity|exact Hform|].
    unfold validateFile. fold ext. rewrite Hgate, Hrd. reflexivity.
  - intros buffer f1 Hrd Hsniff. apply eqb_neq in Hsniff.
    erewrite CreateFile_refused; [reflexivity|exact Hform|].
    unfold validateFile. fold ext. rewrite Hgate, Hrd, Hsniff. reflexivity.
  - intros buffer f1 Hrd Hsniff.
    assert (Hv : validateFile env f (Filename hd) = (Ok ext, f1)).
    { unfold validateFile. fold ext. rewrite Hgate, Hrd, Hsniff. reflexivity. }
    split.
    { intros e Hc.
      rewrite (CreateFile_copy_failed _ _ _ _ _ _ _ _ w Hform Hv Hc).
      reflexivity. }
    intros Hc. rewrite (CreateFile_buffered _ _ _ _ _ _ _ w Hform Hv Hc).
    split.
    { intros e Hq. rewrite (storeBuffered_query_failed _ _ _ _ _ w Hq).
      reflexivity. }
    intros Hq Hmiss. rewrite (storeBuffered_miss s _ ext _ w Hq Hmiss).
    split.
    + intros e ->. reflexivity.
    + intros -> e ->. reflexivity.
Qed.

Lemma CreateFile_error_statuses_witness :
  fst (CreateFile svc
         (faulty None None None None (Some "throttled") None None None)
         (upload "photo.jpg" jpeg) emptyWorld)
  = http_Error "failed to save metadata to DynamoDB: throttled"
      http.StatusInternalServerError.
Proof.
  pose proof (CreateFile_error_statuses svc
    (faulty None None None None (Some "throttled") None None None)
    (upload "photo.jpg" jpeg) emptyWorld) as [_ H].
  specialize (H _ _ eq_refl). cbv zeta in H.
  destruct H as [_ H]. specialize (H (or_intror eq_refl)).
  destruct H as (_ & _ & H).
  assert (Hsniff : http.DetectContentType (sniffBuffer jpeg) = "image/jpeg")
    by (vm_compute; reflexivity).
  destruct (H (sniffBuffer jpeg)
              {| content := jpeg; offset := length jpeg |} eq_refl Hsniff)
    as [_ H1].
  destruct (H1 eq_refl) as [_ H2].
  assert (Hmiss : dynamodb.matching (calculateHash jpeg) (items emptyWorld) = [])
    by (vm_compute; reflexivity).
  destruct (H2 eq_refl Hmiss) as [_ H3].
  exact (H3 eq_refl "throttled" eq_refl).
Defined.

(** ** A wrong extension (C6) *)

(** C6: when the extension of the submitted name is neither [.jpg] nor
    [.jpeg] (compared as strings, so [.JPG] is refused too),
    [validateFile] returns its error with the file exactly as it was
    given: no read is made, the offset has not moved and nothing is
    sniffed.  The answer is 415 whatever the body holds and whatever the
    reads would have returned, and no store is called. *)
Theorem wrong_extension_refused_unread s env r f hd w :
  FormFile r = Ok (f, hd) ->
  filepath.Ext (Filename hd) <> ".jpg" ->
  filepath.Ext (Filename hd) <> ".jpeg" ->
  validateFile env f (Filename hd) = (Err "only JPEG files are allowed", f) /\
  CreateFile s env r w =
    (http_Error "only JPEG files are allowed" http.StatusUnsupportedMediaType, w) /\
  (forall env' bytes' w',
     fst (CreateFile s env'
            {| FormFile := Ok ({| content := bytes'; offset := offset f |}, hd) |}
            w') = fst (CreateFile s env r w)).
Proof.
  intros Hform Hjpg Hjpeg.
  pose proof (validateFile_extension env f _ Hjpeg Hjpg) as Hv.
  split; [exact Hv|].
  rewrite (CreateFile_refused _ _ _ _ _ _ _ w Hform Hv).
  split; [reflexivity|].
  intros env' bytes' w'.
  erewrite CreateFile_refused;
    [reflexivity | reflexivity | apply validateFile_extension; assumption].
Qed.

Lemma wrong_extension_refused_unread_witness :
  validateFile quiet {| content := jpeg; offset := O |} "photo.JPG" =
    (Err "only JPEG files are allowed", {| content := jpeg; offset := O |}) /\
  CreateFile svc quiet (upload "photo.JPG" jpeg) emptyWorld =
    (http_Error "only JPEG files are allowed" http.StatusUnsupportedMediaType,
     emptyWorld).
Proof.
  assert (H1 : filepath.Ext "photo.JPG" <> ".jpg") by (vm_compute; discriminate).
  assert (H2 : filepath.Ext "photo.JPG" <> ".jpeg") by (vm_compute; discriminate).
  destruct (wrong_extension_refused_unread svc quiet (upload "photo.JPG" jpeg)
              _ _ emptyWorld eq_refl H1 H2) as (Hv & Hc & _).
  split; [exact Hv|exact Hc].
Defined.

Example png_refused :
  fst (CreateFile svc quiet (upload "photo.png" jpeg) emptyWorld) =
  http_Error "only JPEG files are allowed" http.StatusUnsupportedMediaType.
Proof. vm_compute. reflexivity. Qed.

(** ** What the handlers do to the table *)

Lemma newRecord_keyed env ext data : keyed (newRecord env ext data).
Proof.
  split; cbn; apply eqb_neq.
  - apply uuid_String_not_empty.
  - apply calculateHash_not_empty.
Qed.

Lemma storeBuffered_items s env ext data w :
  items (snd (storeBuffered s env ext data w)) = items w \/
  items (snd (storeBuffered s env ext data w)) =
    <[ID (newRecord env ext data) := newRecord env ext data]> (items w).
Proof.
  destruct (queryErr env) as [e|] eqn:Hquery.
  { rewrite (storeBuffered_query_failed _ _ _ _ _ w Hquery). now left. }
  destruct (head (dynamodb.matching (calculateHash data) (items w)))
    as [existing|] eqn:Hhead.
  { rewrite (storeBuffered_hit _ _ _ _ _ w Hquery Hhead). now left. }
  apply head_None in Hhead.
  rewrite (storeBuffered_miss s _ ext _ w Hquery Hhead).
  destruct (putObjectErr env); [now left|].
  destruct (putItemErr env); [now left|now right].
Qed.

Lemma CreateFile_items s env r w :
  items (snd (CreateFile s env r w)) = items w \/
  exists ext data,
    items (snd (CreateFile s env r w)) =
      <[ID (newRecord env ext data) := newRecord env ext data]> (items w).
Proof.
  destruct (FormFile r) as [[f hd]|e] eqn:Hform.
  2:{ rewrite (CreateFile_bad_form _ _ _ _ w Hform). now left. }
  destruct (validateFile env f (Filename hd)) as [[ext|e] f1] eqn:Hv.
  2:{ rewrite (CreateFile_refused _ _ _ _ _ _ _ w Hform Hv). now left. }
  destruct (copyErr env) as [e|] eqn:Hcopy.
  { rewrite (CreateFile_copy_failed _ _ _ _ _ _ _ _ w Hform Hv Hcopy).
    now left. }
  rewrite (CreateFile_buffered _ _ _ _ _ _ _ w Hform Hv Hcopy).
  destruct (storeBuffered_items s env ext (content f) w) as [H|H].
  - now left.
  - right. exists ext, (content f). exact H.
Qed.

Lemma DeleteFile_items s env id w :
  items (snd (DeleteFile s env id w)) = items w \/
  items (snd (DeleteFile s env id w)) = delete id (items w).
Proof.
  unfold DeleteFile, retrieveMetadataFromDB. run_store.
  repeat (split_match; cbn); auto.
Qed.

(** A request leaves the table as it was, removes one key, or adds the
    record built by [CreateFile] under the identifier just generated. *)
Lemma serve_items s env rt w :
  items (snd (serve s env rt w)) = items w \/
  (exists id, items (snd (serve s env rt w)) = delete id (items w)) \/
  (exists ext data,
     items (snd (serve s env rt w)) =
       <[ID (newRecord env ext data) := newRecord env ext data]> (items w)).
Proof.
  destruct rt as [r|id|id]; cbn [serve].
  - destruct (CreateFile_items s env r w) as [H|H]; auto.
  - left. apply GetFile_items.
  - destruct (DeleteFile_items s env id w) as [H|H]; eauto.
Qed.

(** ** Records that reach the table (C8) *)

Lemma reachable_keyed s w :
  reachable s w -> forall id md, items w !! id = Some md -> keyed md.
Proof.
  induction 1 as [|env rt w Hw IH]; intros id md Hid.
  - cbn in Hid. rewrite lookup_empty in Hid. discriminate.
  - destruct (serve_items s env rt w) as [H|[[id' H]|(ext & data & H)]];
      rewrite H in Hid.
    + eauto.
    + apply lookup_delete_Some in Hid as [_ Hid]. eauto.
    + apply lookup_insert_Some in Hid as [[_ <-]|[_ Hid]].
      * apply newRecord_keyed.
      * eauto.
Qed.

(** C8: a record whose [ID] or [Hash] is empty is refused by
    [saveMetadataToDB] with an error, without any call to the table: the
    world is returned as it was.  A record that the function does put in
    the table is therefore keyed, and every record in a table that the
    service has filled from empty has a non-empty [ID] and [Hash]. *)
Theorem saveMetadataToDB_requires_id_and_hash s :
  (forall env md w,
     ID md = EmptyString \/ Hash md = EmptyString ->
     saveMetadataToDB env md w =
       (Some "metadata must have non-empty ID and Hash", w)) /\
  (forall env md w,
     items (snd (saveMetadataToDB env md w)) = items w \/
     (keyed md /\
      items (snd (saveMetadataToDB env md w)) = <[ID md := md]> (items w))) /\
  (forall w, reachable s w ->
     forall id md, items w !! id = Some md -> keyed md).
Proof.
  split; [|split].
  - intros env md w. apply saveMetadataToDB_rejects.
  - intros env md w.
    destruct (saveMetadataToDB_items env md w) as [H|(Hk & _ & H)]; auto.
  - apply reachable_keyed.
Qed.

Lemma saveMetadataToDB_requires_id_and_hash_witness :
  saveMetadataToDB quiet
    {| ID := EmptyString; Hash := Hash photo; Extension := ".jpg";
       CreatedAt := CreatedAt photo; UpdatedAt := UpdatedAt photo |} stored
  = (Some "metadata must have non-empty ID and Hash", stored).
Proof.
  destruct (saveMetadataToDB_requires_id_and_hash svc) as [H _].
  apply H. left. reflexivity.
Defined.

(** ** Timestamps and stored records (C9) *)





(** ** The same bytes uploaded twice (C2) *)

Lemma signedReply_ok s env code md url :
  presign env (fileStorageBucket s) (objectKeyOf md) = Ok url ->
  signedReply s env code md =
  Response code
    (JSON {| Metadata := md;
             PresignedURL := replaceLocalstackHostWithLocalhost url |}).
Proof. intros H. unfold signedReply. rewrite H. reflexivity. Qed.






(** The first upload of [jpeg] leaves the object and the record of
    [stored]. *)
Example first_upload_stores :
  objects (snd (CreateFile svc quiet (upload "photo.jpg" jpeg) emptyWorld))
    !! objectKeyOf photo = objects stored !! objectKeyOf photo /\
  items (snd (CreateFile svc quiet (upload "photo.jpg" jpeg) emptyWorld))
    !! ID photo = items stored !! ID photo.
Proof. split; vm_compute; reflexivity. Qed.

(** * Further properties of [service.go] *)

(** ** The host rewrite of presigned URLs *)

Lemma ReplaceFirst_unfold s old new :
  gostrings.ReplaceFirst s old new =
  if String.prefix old s
  then new +:+ String.substring (String.length old)
                 (String.length s - String.length old) s
  else match s with
       | EmptyString => EmptyString
       | String c rest => String c (gostrings.ReplaceFirst rest old new)
       end.
Proof. destruct s; reflexivity. Qed.

Lemma prefix_append old rest : String.prefix old (old +:+ rest) = true.
Proof.
  induction old as [|a old IH].
  - destruct rest; reflexivity.
  - change (String a old +:+ rest) with (String a (old +:+ rest)).
    cbn [String.prefix].
    destruct (ascii_dec a a); [exact IH|congruence].
Qed.

Lemma substring_whole s : String.substring 0 (String.length s) s = s.
Proof. induction s as [|c s IH]; cbn; [reflexivity|]. now rewrite IH. Qed.

Lemma substring_append old rest :
  String.substring (String.length old)
    (String.length (old +:+ rest) - String.length old) (old +:+ rest) = rest.
Proof.
  induction old as [|a old IH]; cbn [String.length String.append].
  - rewrite Nat.sub_0_r. apply substring_whole.
  - cbn. exact IH.
Qed.

Lemma ReplaceFirst_prefix old new rest :
  gostrings.ReplaceFirst (old +:+ rest) old new = new +:+ rest.
Proof.
  rewrite ReplaceFirst_unfold, prefix_append, substring_append. reflexivity.
Qed.

(** X1: a URL in which the LocalStack endpoint does not occur is returned
    exactly as it is. *)
Theorem rewrite_leaves_other_hosts url :
  occurs localstackHost url = false ->
  replaceLocalstackHostWithLocalhost url = url.
Proof.
  unfold replaceLocalstackHostWithLocalhost. fold localstackHost.
  induction url as [|c url IH]; cbn [occurs]; intros H;
    apply orb_false_elim in H as [Hp Hrest];
    rewrite ReplaceFirst_unfold, Hp; [reflexivity|].
  rewrite (IH Hrest). reflexivity.
Qed.

Lemma rewrite_leaves_other_hosts_witness :
  replaceLocalstackHostWithLocalhost
    "https://s3.us-east-1.amazonaws.com/file-storage-bucket/k.jpg?X-Amz-Expires=900"
  = "https://s3.us-east-1.amazonaws.com/file-storage-bucket/k.jpg?X-Amz-Expires=900".
Proof.
  apply (rewrite_leaves_other_hosts
    "https://s3.us-east-1.amazonaws.com/file-storage-bucket/k.jpg?X-Amz-Expires=900").
  vm_compute. reflexivity.
Defined.

(** X2: a URL that starts with the LocalStack endpoint comes back with the
    localhost endpoint in its place and everything after it unchanged,
    later occurrences of the LocalStack endpoint included (only the first
    one is replaced). *)
Theorem rewrite_replaces_leading_host rest :
  replaceLocalstackHostWithLocalhost (localstackHost +:+ rest)
  = localhostHost +:+ rest.
Proof.
  unfold replaceLocalstackHostWithLocalhost.
  apply (ReplaceFirst_prefix localstackHost localhostHost rest).
Qed.

(** ** Answers of GET and DELETE *)

Lemma GetFile_found s env id md w :
  getItemErr env = None -> items w !! id = Some md ->
  GetFile s env id w =
  (signedReply s env http.StatusOK md,
   after w (objects w) (items w)
     [GetItem id; PresignGetObject (objectKeyOf md)]).
Proof.
  intros Hget Hid. unfold GetFile, bind at 1.
  rewrite (retrieveMetadataFromDB_found _ _ _ _ Hget Hid).
  run_store. cbn. unfold signedReply, after, objectKeyOf. cbn.
  rewrite <- app_assoc.
  destruct (presign env _ _); reflexivity.
Qed.

Lemma GetFile_missing s env id w :
  getItemErr env = None -> items w !! id = None ->
  GetFile s env id w =
  (http_Error "file not found" http.StatusNotFound,
   after w (objects w) (items w) [GetItem id]).
Proof.
  intros Hget Hid. unfold GetFile, bind.
  rewrite (retrieveMetadataFromDB_missing _ _ _ Hget Hid). reflexivity.
Qed.

Lemma DeleteFile_deleted s env id md w :
  getItemErr env = None -> deleteObjectErr env = None ->
  deleteItemErr env = None -> items w !! id = Some md ->
  DeleteFile s env id w =
  (Response http.StatusNoContent Empty,
   after w (delete (objectKeyOf md) (objects w)) (delete id (items w))
     [GetItem id; DeleteObject (objectKeyOf md); DeleteItem id]).
Proof.
  intros Hget Hobj Hitem Hid. unfold DeleteFile, bind at 1.
  rewrite (retrieveMetadataFromDB_found _ _ _ _ Hget Hid).
  run_store. rewrite Hobj, Hitem. cbn.
  unfold after, objectKeyOf. cbn. rewrite <- !app_assoc. reflexivity.
Qed.

(** X3: the answers of a GET.  A failed lookup gives 404 with the message
    of the store; a lookup that finds nothing gives 404 "file not found";
    a record that is found is returned as it is stored, with status 200
    and the rewritten URL that the signer gives for [ID + Extension] of
    the record, or with 500 and the signer's message when signing fails. *)
Theorem GetFile_answers s env id w :
  (forall e, getItemErr env = Some e ->
     fst (GetFile s env id w) = http_Error e http.StatusNotFound) /\
  (getItemErr env = None -> items w !! id = None ->
     fst (GetFile s env id w) =
       http_Error "file not found" http.StatusNotFound) /\
  (forall md, getItemErr env = None -> items w !! id = Some md ->
     (forall url,
        presign env (fileStorageBucket s) (ID md +:+ Extension md) = Ok url ->
        fst (GetFile s env id w) =
          Response http.StatusOK
            (JSON {| Metadata := md;
                     PresignedURL := replaceLocalstackHostWithLocalhost url |})) /\
     (forall e,
        presign env (fileStorageBucket s) (ID md +:+ Extension md) = Err e ->
        fst (GetFile s env id w) =
          http_Error e http.StatusInternalServerError)).
Proof.
  split; [|split].
  - intros e Hget. unfold GetFile, bind.
    rewrite (retrieveMetadataFromDB_failed _ _ _ _ Hget). reflexivity.
  - intros Hget Hid. rewrite (GetFile_missing _ _ _ _ Hget Hid). reflexivity.
  - intros md Hget Hid. rewrite (GetFile_found _ _ _ _ _ Hget Hid).
    cbn [fst]. unfold signedReply, objectKeyOf.
    split; [intros url ->|intros e ->]; reflexivity.
Qed.

Lemma GetFile_answers_witness :
  fst (GetFile svc quiet (ID photo) stored) =
  Response http.StatusOK
    (JSON {| Metadata := photo;
             PresignedURL :=
               replaceLocalstackHostWithLocalhost
                 "http://localstack:4566/file-storage-bucket/00112233-4455-4677-8899-aabbccddeeff.jpg?X-Amz-Expires=900" |}).
Proof.
  destruct (GetFile_answers svc quiet (ID photo) stored) as (_ & _ & H).
  destruct (H photo eq_refl eq_refl) as [Hok _].
  apply Hok. vm_compute. reflexivity.
Defined.


(** ** Requests in sequence *)

(** X5: after a DELETE that answers 204, a GET of the same identifier
    answers 404 "file not found". *)
Theorem get_after_delete s env env' id md w :
  getItemErr env = None -> deleteObjectErr env = None ->
  deleteItemErr env = None -> items w !! id = Some md ->
  getItemErr env' = None ->
  fst (DeleteFile s env id w) = Response http.StatusNoContent Empty /\
  fst (GetFile s env' id (snd (DeleteFile s env id w))) =
    http_Error "file not found" http.StatusNotFound.
Proof.
  intros Hget Hobj Hitem Hid Hget'.
  rewrite (DeleteFile_deleted _ _ _ _ _ Hget Hobj Hitem Hid).
  cbn [fst snd]. split; [reflexivity|].
  rewrite GetFile_missing; [reflexivity|exact Hget'|].
  cbn [after items]. apply lookup_delete_eq.
Qed.

Lemma get_after_delete_witness :
  fst (GetFile svc later (ID photo)
         (snd (DeleteFile svc quiet (ID photo) stored))) =
  http_Error "file not found" http.StatusNotFound.
Proof.
  apply (get_after_delete svc quiet later (ID photo) photo stored);
    reflexivity.
Defined.

(** X6: a GET of the identifier returned by a 201 upload answers with the
    same record, status 200 when the signer returns a URL for its key. *)
Theorem get_after_create s env env' r w resp url :
  fst (CreateFile s env r w) = Response http.StatusCreated (JSON resp) ->
  getItemErr env' = None ->
  presign env' (fileStorageBucket s)
    (ID (Metadata resp) +:+ Extension (Metadata resp)) = Ok url ->
  fst (GetFile s env' (ID (Metadata resp)) (snd (CreateFile s env r w))) =
    Response http.StatusOK
      (JSON {| Metadata := Metadata resp;
               PresignedURL := replaceLocalstackHostWithLocalhost url |}).
Proof.
  intros Hcreated Hget Hurl.
  destruct (FormFile r) as [[f hd]|e] eqn:Hform.
  2:{ rewrite (CreateFile_bad_form _ _ _ _ w Hform) in Hcreated.
      discriminate. }
  destruct (CreateFile_created _ _ _ _ _ _ _ Hform Hcreated)
    as (ext & _ & Hitems & _).
  rewrite (GetFile_found s env' _ (Metadata resp)).
  - cbn [fst]. apply signedReply_ok. exact Hurl.
  - exact Hget.
  - rewrite Hitems. apply lookup_insert_eq.
Qed.

Lemma get_after_create_witness :
  fst (GetFile svc later (ID photo)
         (snd (CreateFile svc quiet (upload "photo.jpg" jpeg) emptyWorld))) =
  Response http.StatusOK
    (JSON {| Metadata := photo;
             PresignedURL :=
               replaceLocalstackHostWithLocalhost
                 "http://localstack:4566/file-storage-bucket/00112233-4455-4677-8899-aabbccddeeff.jpg?X-Amz-Expires=900" |}).
Proof.
  assert (Hcreated :
    fst (CreateFile svc quiet (upload "photo.jpg" jpeg) emptyWorld) =
    Response http.StatusCreated
      (JSON {| Metadata := photo;
               PresignedURL :=
                 "http://localhost:4566/file-storage-bucket/00112233-4455-4677-8899-aabbccddeeff.jpg?X-Amz-Expires=900" |}))
    by (vm_compute; reflexivity).
  apply (get_after_create svc quiet later _ emptyWorld _ _ Hcreated eq_refl).
  vm_compute. reflexivity.
Defined.

(** X7: an upload answered 201 followed by a DELETE of the returned
    identifier answered 204 leaves the bucket and the table exactly as
    they were before the upload, provided the generated identifier and
    object key were not in use. *)
Theorem delete_after_create s env env' r w resp :
  fst (CreateFile s env r w) = Response http.StatusCreated (JSON resp) ->
  items w !! ID (Metadata resp) = None ->
  objects w !! (ID (Metadata resp) +:+ Extension (Metadata resp)) = None ->
  getItemErr env' = None -> deleteObjectErr env' = None ->
  deleteItemErr env' = None ->
  let w' := snd (DeleteFile s env' (ID (Metadata resp))
                   (snd (CreateFile s env r w))) in
  fst (DeleteFile s env' (ID (Metadata resp)) (snd (CreateFile s env r w)))
    = Response http.StatusNoContent Empty /\
  objects w' = objects w /\ items w' = items w.
Proof.
  intros Hcreated Hid Hkey Hget Hobj Hitem w'. subst w'.
  destruct (FormFile r) as [[f hd]|e] eqn:Hform.
  2:{ rewrite (CreateFile_bad_form _ _ _ _ w Hform) in Hcreated.
      discriminate. }
  destruct (CreateFile_created _ _ _ _ _ _ _ Hform Hcreated)
    as (ext & _ & Hitems & Hobjects).
  rewrite (DeleteFile_deleted s env' _ (Metadata resp) _ Hget Hobj Hitem).
  2:{ rewrite Hitems. apply lookup_insert_eq. }
  cbn [fst snd after objects items]. rewrite Hitems, Hobjects.
  split; [reflexivity|].
  split; apply delete_insert_id; assumption.
Qed.

Lemma delete_after_create_witness :
  items (snd (DeleteFile svc later (ID photo)
           (snd (CreateFile svc quiet (upload "photo.jpg" jpeg) emptyWorld))))
  = items emptyWorld.
Proof.
  assert (Hcreated :
    fst (CreateFile svc quiet (upload "photo.jpg" jpeg) emptyWorld) =
    Response http.StatusCreated
      (JSON {| Metadata := photo;
               PresignedURL :=
                 "http://localhost:4566/file-storage-bucket/00112233-4455-4677-8899-aabbccddeeff.jpg?X-Amz-Expires=900" |}))
    by (vm_compute; reflexivity).
  destruct (delete_after_create svc quiet later _ emptyWorld _ Hcreated
              eq_refl eq_refl eq_refl eq_refl eq_refl) as (_ & _ & H).
  exact H.
Defined.

(** ** What an upload leaves behind *)

(** X8: when the object upload succeeds and the metadata write fails, the
    answer is 500 and the object stays in the bucket with no record for
    it: the table is unchanged and no delete is issued after the failed
    write. *)
Theorem failed_metadata_write_leaves_object s env name bytes e w :
  readErr env = None -> copyErr env = None -> queryErr env = None ->
  putObjectErr env = None -> putItemErr env = Some e ->
  jpegUpload name bytes ->
  (forall id md, items w !! id = Some md -> Hash md <> calculateHash bytes) ->
  let md := newRecord env (filepath.Ext name) bytes in
  let w' := snd (CreateFile s env (upload name bytes) w) in
  fst (CreateFile s env (upload name bytes) w) =
    http_Error ("failed to save metadata to DynamoDB: " +:+ e)
      http.StatusInternalServerError /\
  objects w' !! (ID md +:+ Extension md) = Some bytes /\
  items w' = items w /\
  calls w' = calls w ++ [Query (Hash md); PutObject (ID md +:+ Extension md);
                         PutItem (ID md)].
Proof.
  intros Hread Hcopy Hquery Hput Hitem Hjpeg Hfresh md w'. subst w'.
  rewrite (CreateFile_buffered s env (upload name bytes) _ _ _ _ w eq_refl
             (validateFile_accepts env name bytes Hread Hjpeg) Hcopy).
  cbn [content].
  rewrite (storeBuffered_miss s env _ bytes w Hquery
             (matching_none _ _ Hfresh)).
  rewrite Hput, Hitem. cbn [fst snd after objects items calls].
  split; [reflexivity|].
  split; [apply lookup_insert_eq|].
  split; reflexivity.
Qed.

Lemma failed_metadata_write_leaves_object_witness :
  objects (snd (CreateFile svc
             (faulty None None None None (Some "throttled") None None None)
             (upload "photo.jpg" jpeg) emptyWorld))
    !! "00112233-4455-4677-8899-aabbccddeeff.jpg" = Some jpeg /\
  items (snd (CreateFile svc
             (faulty None None None None (Some "throttled") None None None)
             (upload "photo.jpg" jpeg) emptyWorld)) = ∅.
Proof.
  assert (Hjpeg : jpegUpload "photo.jpg" jpeg)
    by (split; [right|]; vm_compute; reflexivity).
  assert (Hfresh : forall id md, items emptyWorld !! id = Some md ->
                                 Hash md <> calculateHash jpeg).
  { intros id md H. cbn in H. rewrite lookup_empty in H. discriminate. }
  destruct (failed_metadata_write_leaves_object svc
              (faulty None None None None (Some "throttled") None None None)
              "photo.jpg" jpeg "throttled" emptyWorld
              eq_refl eq_refl eq_refl eq_refl eq_refl Hjpeg Hfresh)
    as (_ & Hobj & Hitems & _).
  split; [|exact Hitems].
  etransitivity; [|exact Hobj]. vm_compute. reflexivity.
Defined.

(** The calls of an upload after its body has been buffered. *)
Lemma storeBuffered_calls s env ext data w :
  let md := newRecord env ext data in
  let key := objectKeyOf md in
  exists issued,
    calls (snd (storeBuffered s env ext data w)) = calls w ++ issued /\
    (issued = [Query (Hash md)] \/
     (exists existing, issued = [Query (Hash md);
                                 PresignGetObject (objectKeyOf existing)]) \/
     issued = [Query (Hash md); PutObject key] \/
     issued = [Query (Hash md); PutObject key; PutItem (ID md)] \/
     issued = [Query (Hash md); PutObject key; PutItem (ID md);
               PresignGetObject key]).
Proof.
  intros md key.
  destruct (queryErr env) as [e|] eqn:Hquery.
  { rewrite (storeBuffered_query_failed _ _ _ _ _ w Hquery).
    eexists. split; [reflexivity|]. auto. }
  destruct (head (dynamodb.matching (calculateHash data) (items w)))
    as [existing|] eqn:Hhead.
  { rewrite (storeBuffered_hit _ _ _ _ _ w Hquery Hhead).
    eexists. split; [reflexivity|]. right. left. eauto. }
  apply head_None in Hhead.
  rewrite (storeBuffered_miss s _ ext _ w Hquery Hhead).
  destruct (putObjectErr env); [eexists; split; [reflexivity|]; auto|].
  destruct (putItemErr env); eexists; (split; [reflexivity|]); auto 6.
Qed.

(** X9: the calls that an upload makes form one of six sequences: none
    (the request was refused or its body could not be buffered); the
    query alone; the query and a signing request (known content); the
    query and the object upload; these and the metadata write; these and
    a signing request.  So the metadata write is issued only after the
    object upload, at most one object and one record are written, and an
    upload never reads by identifier and never deletes. *)
Theorem CreateFile_call_sequences s env r w :
  exists issued,
    calls (snd (CreateFile s env r w)) = calls w ++ issued /\
    (issued = [] \/
     (exists h, issued = [Query h]) \/
     (exists h key, issued = [Query h; PresignGetObject key]) \/
     (exists h key, issued = [Query h; PutObject key]) \/
     (exists h key id, issued = [Query h; PutObject key; PutItem id]) \/
     (exists h key id,
        issued = [Query h; PutObject key; PutItem id; PresignGetObject key])).
Proof.
  assert (Hnone : forall o : Outcome, exists issued,
             calls (snd (o, w)) = calls w ++ issued /\
             (issued = [] \/
              (exists h, issued = [Query h]) \/
              (exists h key, issued = [Query h; PresignGetObject key]) \/
              (exists h key, issued = [Query h; PutObject key]) \/
              (exists h key id, issued = [Query h; PutObject key; PutItem id]) \/
              (exists h key id,
                 issued = [Query h; PutObject key; PutItem id;
                           PresignGetObject key]))).
  { intros o. exists []. split; [cbn; now rewrite app_nil_r|now left]. }
  destruct (FormFile r) as [[f hd]|e] eqn:Hform.
  2:{ rewrite (CreateFile_bad_form _ _ _ _ w Hform). apply Hnone. }
  destruct (validateFile env f (Filename hd)) as [[ext|e] f1] eqn:Hv.
  2:{ rewrite (CreateFile_refused _ _ _ _ _ _ _ w Hform Hv). apply Hnone. }
  destruct (copyErr env) as [e|] eqn:Hcopy.
  { rewrite (CreateFile_copy_failed _ _ _ _ _ _ _ _ w Hform Hv Hcopy).
    apply Hnone. }
  rewrite (CreateFile_buffered _ _ _ _ _ _ _ w Hform Hv Hcopy).
  destruct (storeBuffered_calls s env ext (content f) w)
    as (issued & Hcalls & Hshape).
  exists issued. split; [exact Hcalls|].
  destruct Hshape as [->|[[existing ->]|[->|[->| ->]]]]; eauto 10.
Qed.

(** X10: an upload answered 400 or 415 has made no call and leaves the
    whole world, both stores included, as it was. *)
Theorem refused_upload_touches_nothing s env r w :
  status (fst (CreateFile s env r w)) = Some http.StatusBadRequest \/
  status (fst (CreateFile s env r w)) = Some http.StatusUnsupportedMediaType ->
  snd (CreateFile s env r w) = w.
Proof.
  destruct (FormFile r) as [[f hd]|e] eqn:Hform.
  2:{ rewrite (CreateFile_bad_form _ _ _ _ w Hform). reflexivity. }
  destruct (validateFile env f (Filename hd)) as [[ext|e] f1] eqn:Hv.
  2:{ rewrite (CreateFile_refused _ _ _ _ _ _ _ w Hform Hv). reflexivity. }
  destruct (copyErr env) as [e|] eqn:Hcopy.
  { rewrite (CreateFile_copy_failed _ _ _ _ _ _ _ _ w Hform Hv Hcopy).
    reflexivity. }
  rewrite (CreateFile_buffered _ _ _ _ _ _ _ w Hform Hv Hcopy).
  destruct (queryErr env) as [e|] eqn:Hquery.
  { rewrite (storeBuffered_query_failed _ _ _ _ _ w Hquery).
    intros [H|H]; discriminate. }
  destruct (head (dynamodb.matching (calculateHash (content f)) (items w)))
    as [existing|] eqn:Hhead.
  { rewrite (storeBuffered_hit _ _ _ _ _ w Hquery Hhead). cbn [fst].
    unfold signedReply. destruct (presign env _ _); intros [H|H]; discriminate. }
  apply head_None in Hhead.
  rewrite (storeBuffered_miss s _ ext _ w Hquery Hhead).
  destruct (putObjectErr env); [intros [H|H]; discriminate|].
  destruct (putItemErr env); [intros [H|H]; discriminate|].
  cbn [fst]. unfold signedReply.
  destruct (presign env _ _); intros [H|H]; discriminate.
Qed.

Lemma refused_upload_touches_nothing_witness :
  snd (CreateFile svc quiet (upload "notes.txt" (bytes_of_string "hello"))
         stored) = stored.
Proof.
  apply (refused_upload_touches_nothing svc quiet
           (upload "notes.txt" (bytes_of_string "hello")) stored).
  right. vm_compute. reflexivity.
Defined.

(** ** The lookup by hash and the dedup decision *)

Lemma getFileIDByHash_result env hash w :
  hash <> EmptyString -> queryErr env = None ->
  getFileIDByHash env hash w =
  (Ok (head (dynamodb.matching hash (items w))),
   after w (objects w) (items w) [Query hash]).
Proof.
  intros Hne Hquery. apply eqb_neq in Hne.
  unfold getFileIDByHash. rewrite Hne. run_store. rewrite Hquery. cbn.
  destruct (dynamodb.matching hash (items w)); reflexivity.
Qed.

(** X11: [getFileIDByHash] refuses the empty hash without querying.  For
    a non-empty hash, a failed query is reported with its message; a
    query that succeeds returns a record only if that record is in the
    table and has exactly this hash, and returns no record exactly when
    no record of the table has this hash.  It never changes a store. *)
Theorem getFileIDByHash_exact env hash w :
  getFileIDByHash env EmptyString w = (Err "hash cannot be empty", w) /\
  (hash <> EmptyString ->
     (forall e, queryErr env = Some e ->
        fst (getFileIDByHash env hash w) =
          Err ("failed to query DynamoDB: " +:+ e)) /\
     (queryErr env = None ->
        (forall md, fst (getFileIDByHash env hash w) = Ok (Some md) ->
           Hash md = hash /\ exists id, items w !! id = Some md) /\
        (fst (getFileIDByHash env hash w) = Ok None <->
           forall id md, items w !! id = Some md -> Hash md <> hash)) /\
     objects (snd (getFileIDByHash env hash w)) = objects w /\
     items (snd (getFileIDByHash env hash w)) = items w).
Proof.
  split; [reflexivity|]. intros Hne.
  split; [|split].
  - intros e Hquery. apply eqb_neq in Hne.
    unfold getFileIDByHash. rewrite Hne. run_store. rewrite Hquery.
    reflexivity.
  - intros Hquery. rewrite (getFileIDByHash_result _ _ w Hne Hquery).
    cbn [fst]. split.
    + intros md [= Hhead]. apply matching_head. exact Hhead.
    + split.
      * intros [= Hhead] id md Hid Hh.
        destruct (matching_some _ _ _ _ Hid Hh) as [x Hx]. congruence.
      * intros Hfresh. now rewrite (matching_none _ _ Hfresh).
  - apply eqb_neq in Hne. unfold getFileIDByHash. rewrite Hne. run_store.
    destruct (queryErr env); cbn; [auto|].
    destruct (dynamodb.matching hash (items w)); auto.
Qed.

Lemma getFileIDByHash_exact_witness :
  Hash photo = Hash photo /\ exists id, items stored !! id = Some photo.
Proof.
  destruct (getFileIDByHash_exact quiet (Hash photo) stored) as [_ H].
  assert (Hne : Hash photo <> EmptyString) by discriminate.
  destruct (H Hne) as (_ & Hok & _).
  destruct (Hok eq_refl) as [Hsome _].
  apply Hsome. vm_compute. reflexivity.
Defined.

(** X12: the dedup decision is exact.  For a valid JPEG upload none of
    whose calls fails and whose signing succeeds, the answer is 201
    exactly when no record of the table has the hash of the body, and 200
    exactly when some record has it. *)
Theorem created_iff_hash_unknown s env name bytes w :
  noFaults env -> jpegUpload name bytes ->
  (forall key, exists url, presign env (fileStorageBucket s) key = Ok url) ->
  let known := exists id md, items w !! id = Some md /\
                             Hash md = calculateHash bytes in
  (status (fst (CreateFile s env (upload name bytes) w))
     = Some http.StatusCreated <-> ~ known) /\
  (status (fst (CreateFile s env (upload name bytes) w))
     = Some http.StatusOK <-> known).
Proof.
  intros Hok Hjpeg Hsign known. subst known.
  pose proof Hok as (Hread & Hcopy & Hput & _ & Hitem & _ & _ & Hquery).
  rewrite (CreateFile_buffered s env (upload name bytes) _ _ _ _ w eq_refl
             (validateFile_accepts env name bytes Hread Hjpeg) Hcopy).
  cbn [content].
  destruct (head (dynamodb.matching (calculateHash bytes) (items w)))
    as [existing|] eqn:Hhead.
  - rewrite (storeBuffered_hit _ _ _ _ _ w Hquery Hhead). cbn [fst].
    destruct (Hsign (objectKeyOf existing)) as [url Hurl].
    rewrite (signedReply_ok _ _ _ _ _ Hurl). cbn [status].
    destruct (matching_head _ _ _ Hhead) as [Hh [id Hid]].
    assert (Hknown : exists id md, items w !! id = Some md /\
                                   Hash md = calculateHash bytes) by eauto.
    split; split; intros; first [discriminate | tauto | reflexivity].
  - apply head_None in Hhead.
    rewrite (storeBuffered_miss s _ _ _ w Hquery Hhead).
    rewrite Hput, Hitem. cbn [fst].
    destruct (Hsign (objectKeyOf (newRecord env (filepath.Ext name) bytes)))
      as [url Hurl].
    rewrite (signedReply_ok _ _ _ _ _ Hurl). cbn [status].
    assert (Hunknown : ~ exists id md, items w !! id = Some md /\
                                       Hash md = calculateHash bytes).
    { intros (id & md & Hid & Hh).
      destruct (matching_some _ _ _ _ Hid Hh) as [x Hx].
      rewrite Hhead in Hx. discriminate. }
    split; split; intros; first [discriminate | tauto | reflexivity].
Qed.

Lemma created_iff_hash_unknown_witness :
  status (fst (CreateFile svc quiet (upload "again.jpeg" jpeg) stored))
  = Some http.StatusOK.
Proof.
  assert (Hquiet : noFaults quiet) by (repeat split).
  assert (Hjpeg : jpegUpload "again.jpeg" jpeg)
    by (split; [left|]; vm_compute; reflexivity).
  assert (Hsign : forall key, exists url,
             presign quiet (fileStorageBucket svc) key = Ok url)
    by (intros key; eexists; reflexivity).
  destruct (created_iff_hash_unknown svc quiet "again.jpeg" jpeg stored
              Hquiet Hjpeg Hsign) as [_ [_ H]].
  apply H. exists (ID photo), photo.
  split; vm_compute; reflexivity.
Defined.

(** ** A record written and read back *)

(** X13: a record with a non-empty [ID] and [Hash] whose write does not
    fail is what a later lookup of its [ID] returns, and the lookup of
    any other identifier returns what it returned before the write. *)
Theorem saved_record_is_retrieved env env' md w :
  keyed md -> putItemErr env = None -> getItemErr env' = None ->
  let w' := snd (saveMetadataToDB env md w) in
  fst (saveMetadataToDB env md w) = None /\
  fst (retrieveMetadataFromDB env' (ID md) w') = (Some md, None) /\
  (forall id, id <> ID md ->
     fst (retrieveMetadataFromDB env' id w') =
     fst (retrieveMetadataFromDB env' id w)).
Proof.
  intros [Hid Hh] Hput Hget w'. subst w'.
  apply eqb_neq in Hid, Hh.
  unfold saveMetadataToDB. rewrite Hid, Hh. run_store.
  unfold retrieveMetadataFromDB. run_store. rewrite Hput, Hget. cbn.
  rewrite lookup_insert_eq.
  split; [reflexivity|]. split; [reflexivity|].
  intros id Hne. rewrite lookup_insert_ne by congruence.
  destruct (items w !! id); reflexivity.
Qed.

Lemma saved_record_is_retrieved_witness :
  fst (retrieveMetadataFromDB later (ID photo)
         (snd (saveMetadataToDB quiet photo emptyWorld))) = (Some photo, None).
Proof.
  assert (Hk : keyed photo) by (split; discriminate).
  destruct (saved_record_is_retrieved quiet later photo emptyWorld Hk
              eq_refl eq_refl) as (_ & H & _).
  exact H.
Defined.

(** ** What [validateFile] accepts *)

Lemma list_ascii_of_string_append a b :
  list_ascii_of_string (a +:+ b) =
  list_ascii_of_string a ++ list_ascii_of_string b.
Proof.
  induction a as [|c a IH]; [reflexivity|].
  cbn [list_ascii_of_string app]. rewrite <- IH. reflexivity.
Qed.

Lemma string_of_list_ascii_append l1 l2 :
  string_of_list_ascii (l1 ++ l2) =
  string_of_list_ascii l1 +:+ string_of_list_ascii l2.
Proof.
  induction l1 as [|c l1 IH]; [reflexivity|].
  cbn [string_of_list_ascii app]. rewrite IH. reflexivity.
Qed.

(** The scan returns nothing, or the bytes it has walked over (in the
    order of the path) followed by what it had already passed. *)
Lemma scan_suffix l : forall suffix,
  filepath.scan l suffix = EmptyString \/
  exists l1 l2, l = l1 ++ l2 /\
    filepath.scan l suffix = string_of_list_ascii (rev l1) +:+ suffix.
Proof.
  induction l as [|c l IH]; intros suffix; cbn [filepath.scan]; [now left|].
  destruct (Ascii.eqb c "/"); [now left|].
  destruct (Ascii.eqb c ".").
  - right. exists [c], l. split; reflexivity.
  - destruct (IH (String c suffix)) as [H|(l1 & l2 & -> & H)]; [now left|].
    right. exists (c :: l1), l2. split; [reflexivity|].
    rewrite H. cbn [rev]. rewrite string_of_list_ascii_append.
    change (string_of_list_ascii [c]) with (String c EmptyString).
    clear. induction (string_of_list_ascii (rev l1)) as [|a x IHx];
      [reflexivity|].
    change (String a (x +:+ String c suffix) =
            String a ((x +:+ String c EmptyString) +:+ suffix)).
    now rewrite IHx.
Qed.

Lemma append_empty_r s : s +:+ EmptyString = s.
Proof.
  induction s as [|c s IH]; [reflexivity|].
  change (String c (s +:+ EmptyString) = String c s). now rewrite IH.
Qed.

(** [filepath.Ext] returns a suffix of the path. *)
Lemma Ext_is_suffix name : exists base, name = base +:+ filepath.Ext name.
Proof.
  unfold filepath.Ext.
  destruct (scan_suffix (rev (list_ascii_of_string name)) EmptyString)
    as [H|(l1 & l2 & Hsplit & H)]; rewrite H.
  - exists name. now rewrite append_empty_r.
  - exists (string_of_list_ascii (rev l2)).
    rewrite append_empty_r, <- string_of_list_ascii_append, <- rev_app_distr,
      <- Hsplit, rev_involutive.
    symmetry. apply string_of_list_ascii_of_string.
Qed.

Lemma Ext_jpg base : filepath.Ext (base +:+ ".jpg") = ".jpg".
Proof.
  unfold filepath.Ext.
  rewrite list_ascii_of_string_append, rev_app_distr. reflexivity.
Qed.

Lemma Ext_jpeg base : filepath.Ext (base +:+ ".jpeg") = ".jpeg".
Proof.
  unfold filepath.Ext.
  rewrite list_ascii_of_string_append, rev_app_distr. reflexivity.
Qed.

(** X14: [validateFile] refuses a file for its name exactly when the
    name does not end in [.jpg] or [.jpeg]: whatever precedes the ending
    (dots, directories, nothing at all) plays no part, and the case of
    the ending does. *)
Theorem refused_for_name_iff_other_ending env f name :
  fst (validateFile env f name) = Err "only JPEG files are allowed" <->
  ~ exists base, name = base +:+ ".jpg" \/ name = base +:+ ".jpeg".
Proof.
  split.
  - intros Hrefused (base & [-> | ->]); revert Hrefused;
      unfold validateFile; rewrite ?Ext_jpg, ?Ext_jpeg;
      cbn [negb andb]; change (String.eqb ".jpg" ".jpeg") with false;
      change (String.eqb ".jpg" ".jpg") with true;
      change (String.eqb ".jpeg" ".jpeg") with true;
      cbn [negb andb];
      destruct (Read env f 512) as [[buffer [e|]] f1]; cbn;
      try discriminate;
      destruct (negb _); discriminate.
  - intros Hending.
    destruct (Ext_is_suffix name) as [base Hbase].
    rewrite validateFile_extension; [reflexivity| |];
      intros Hext; apply Hending; exists base; rewrite Hext in Hbase; auto.
Qed.

Lemma refused_for_name_iff_other_ending_witness :
  fst (validateFile quiet {| content := jpeg; offset := O |} "photo.jpg.exe")
  = Err "only JPEG files are allowed".
Proof.
  apply (refused_for_name_iff_other_ending quiet
           {| content := jpeg; offset := O |} "photo.jpg.exe").
  intros (base & [H|H]);
    apply (f_equal (fun s => rev (list_ascii_of_string s))) in H;
    rewrite list_ascii_of_string_append, rev_app_distr in H;
    cbn in H; discriminate.
Defined.

Lemma firstMatch_skip sig sigs data fnw :
  http.match_ sig data fnw = EmptyString ->
  http.firstMatch (sig :: sigs) data fnw = http.firstMatch sigs data fnw.
Proof. intros H. cbn [http.firstMatch]. rewrite H. reflexivity. Qed.

Lemma maskedSig_no_match mask pat (skipWS : bool) ct data fnw :
  http.maskedMatch mask pat (if skipWS then drop fnw data else data) = false ->
  http.match_ (http.maskedSig mask pat skipWS ct) data fnw = EmptyString.
Proof.
  intros H. unfold http.match_. rewrite H.
  destruct (negb (length pat =? length mask)%nat); [reflexivity|].
  destruct (length (if skipWS then drop fnw data else data) <? length pat)%nat;
    reflexivity.
Qed.

(** No signature of the table before the JPEG one matches data that starts
    with the JPEG marker. *)
Lemma firstMatch_jpeg rest :
  http.firstMatch http.sniffSignatures (xff :: xd8 :: xff :: rest) O
  = "image/jpeg".
Proof.
  unfold http.sniffSignatures.
  repeat (rewrite firstMatch_skip
            by first [reflexivity | apply maskedSig_no_match; reflexivity]).
  destruct rest; reflexivity.
Qed.

Lemma firstMatch_sig sigs data fnw :
  http.firstMatch sigs data fnw = "image/jpeg" ->
  Exists (fun sig => http.match_ sig data fnw = "image/jpeg") sigs.
Proof.
  induction sigs as [|sig sigs IH]; cbn [http.firstMatch].
  - discriminate.
  - destruct (negb (String.eqb (http.match_ sig data fnw) EmptyString)).
    + intros H. now left.
    + intros H. right. auto.
Qed.

Lemma hasPrefix_true sig : forall data,
  http.hasPrefix data sig = true -> exists rest, data = sig ++ rest.
Proof.
  induction sig as [|b sig IH]; intros data H.
  - exists data. reflexivity.
  - destruct data as [|d data]; [discriminate|].
    cbn [http.hasPrefix] in H. apply andb_true_iff in H as [Hb H].
    apply Byte.byte_dec_bl in Hb as <-.
    destruct (IH _ H) as [rest ->]. exists rest. reflexivity.
Qed.

(** Only the JPEG signature yields ["image/jpeg"]. *)
Lemma firstMatch_jpeg_inv data fnw :
  http.firstMatch http.sniffSignatures data fnw = "image/jpeg" ->
  exists rest, data = xff :: xd8 :: xff :: rest.
Proof.
  intros H. apply firstMatch_sig in H. unfold http.sniffSignatures in H.
  repeat (apply Exists_cons in H as [H|H]; [refute_sig H|]).
  - apply (hasPrefix_true [xff; xd8; xff]). assumption.
  - apply Exists_nil in H. contradiction.
Qed.

Lemma sniffBuffer_inv bytes rest :
  take http.sniffLen (sniffBuffer bytes) = xff :: xd8 :: xff :: rest ->
  exists rest', bytes = xff :: xd8 :: xff :: rest'.
Proof.
  unfold sniffBuffer, http.sniffLen.
  destruct bytes as [|a [|b [|c bytes]]]; intros H.
  - vm_compute in H. discriminate.
  - vm_compute in H. discriminate.
  - vm_compute in H. discriminate.
  - cbn [firstn length app] in H. injection H as -> -> -> _.
    exists bytes. reflexivity.
Qed.

Lemma sniff_jpeg_iff bytes :
  http.DetectContentType (sniffBuffer bytes) = "image/jpeg" <->
  exists rest, bytes = xff :: xd8 :: xff :: rest.
Proof.
  unfold http.DetectContentType. split.
  - intros H. apply firstMatch_jpeg_inv in H as [rest H].
    apply (sniffBuffer_inv _ _ H).
  - intros [rest ->].
    assert (Hshape : exists tail,
               take http.sniffLen (sniffBuffer (xff :: xd8 :: xff :: rest))
               = xff :: xd8 :: xff :: tail).
    { unfold sniffBuffer, http.sniffLen. eexists.
      cbn [firstn length app]. reflexivity. }
    destruct Hshape as [tail ->].
    change (http.firstNonWS (xff :: xd8 :: xff :: tail)) with O.
    apply firstMatch_jpeg.
Qed.

(** X15: once the name has passed and the read succeeds, [validateFile]
    accepts a body exactly when it starts with the three bytes FF D8 FF;
    nothing after them is looked at, and a body shorter than three bytes
    (the empty one included) is refused. *)
Theorem accepted_iff_jpeg_marker env name bytes :
  readErr env = None ->
  filepath.Ext name = ".jpeg" \/ filepath.Ext name = ".jpg" ->
  fst (validateFile env {| content := bytes; offset := O |} name)
    = Ok (filepath.Ext name) <->
  exists rest, bytes = xff :: xd8 :: xff :: rest.
Proof.
  intros Hread Hext. rewrite <- sniff_jpeg_iff. split.
  - intros Hok.
    destruct (String.eqb (http.DetectContentType (sniffBuffer bytes))
                "image/jpeg") eqn:Hsniff.
    { apply String.eqb_eq. exact Hsniff. }
    exfalso. revert Hok.
    assert (Hgate : negb (String.eqb (filepath.Ext name) ".jpeg")
                    && negb (String.eqb (filepath.Ext name) ".jpg") = false).
    { destruct Hext as [-> | ->]; reflexivity. }
    unfold validateFile, Read. rewrite Hgate, Hread.
    change (drop (offset {| content := bytes; offset := O |})
              (content {| content := bytes; offset := O |})) with bytes.
    destruct bytes as [|b bytes]; [discriminate|].
    fold (sniffBuffer (b :: bytes)). rewrite Hsniff. discriminate.
  - intros Hsniff.
    rewrite (validateFile_accepts env name bytes Hread (conj Hext Hsniff)).
    reflexivity.
Qed.

Lemma accepted_iff_jpeg_marker_witness :
  fst (validateFile quiet {| content := [xff; xd8; xff]; offset := O |}
         "scan.jpeg") = Ok ".jpeg".
Proof.
  apply (accepted_iff_jpeg_marker quiet "scan.jpeg" [xff; xd8; xff] eq_refl
           (or_introl eq_refl)).
  exists []. reflexivity.
Defined.

(** ** Invariants of the stores *)

Lemma validateFile_ok_ext env f name ext f1 :
  validateFile env f name = (Ok ext, f1) -> ext = ".jpeg" \/ ext = ".jpg".
Proof.
  unfold validateFile.
  destruct (String.eqb (filepath.Ext name) ".jpeg") eqn:H1.
  { apply String.eqb_eq in H1. cbn [negb andb].
    destruct (Read env f 512) as [[buffer [e|]] f2]; [discriminate|].
    destruct (negb _); [discriminate|]. intros [= <- _]. now left. }
  destruct (String.eqb (filepath.Ext name) ".jpg") eqn:H2.
  { apply String.eqb_eq in H2. cbn [negb andb].
    destruct (Read env f 512) as [[buffer [e|]] f2]; [discriminate|].
    destruct (negb _); [discriminate|]. intros [= <- _]. now right. }
  discriminate.
Qed.

(** What an upload does to the two stores together. *)
Lemma CreateFile_effect s env r w :
  let w' := snd (CreateFile s env r w) in
  (objects w' = objects w /\ items w' = items w) \/
  exists ext data,
    (ext = ".jpeg" \/ ext = ".jpg") /\
    let md := newRecord env ext data in
    objects w' = <[objectKeyOf md := data]> (objects w) /\
    (items w' = items w \/ items w' = <[ID md := md]> (items w)).
Proof.
  intros w'. subst w'.
  destruct (FormFile r) as [[f hd]|e] eqn:Hform.
  2:{ rewrite (CreateFile_bad_form _ _ _ _ w Hform). now left. }
  destruct (validateFile env f (Filename hd)) as [[ext|e] f1] eqn:Hv.
  2:{ rewrite (CreateFile_refused _ _ _ _ _ _ _ w Hform Hv). now left. }
  destruct (copyErr env) as [e|] eqn:Hcopy.
  { rewrite (CreateFile_copy_failed _ _ _ _ _ _ _ _ w Hform Hv Hcopy).
    now left. }
  rewrite (CreateFile_buffered _ _ _ _ _ _ _ w Hform Hv Hcopy).
  destruct (queryErr env) as [e|] eqn:Hquery.
  { rewrite (storeBuffered_query_failed _ _ _ _ _ w Hquery). now left. }
  destruct (head (dynamodb.matching (calculateHash (content f)) (items w)))
    as [existing|] eqn:Hhead.
  { rewrite (storeBuffered_hit _ _ _ _ _ w Hquery Hhead). now left. }
  apply head_None in Hhead.
  rewrite (storeBuffered_miss s _ ext _ w Hquery Hhead).
  destruct (putObjectErr env); [now left|].
  right. exists ext, (content f).
  split; [exact (validateFile_ok_ext _ _ _ _ _ Hv)|].
  destruct (putItemErr env); cbn; auto.
Qed.

(** What a delete does to the two stores together. *)
Lemma DeleteFile_effect s env id w :
  let w' := snd (DeleteFile s env id w) in
  (objects w' = objects w /\ items w' = items w) \/
  exists md,
    items w !! id = Some md /\
    objects w' = delete (objectKeyOf md) (objects w) /\
    ((deleteItemErr env <> None /\ items w' = items w) \/
     items w' = delete id (items w)).
Proof.
  intros w'. subst w'.
  destruct (getItemErr env) as [e|] eqn:Hget.
  { unfold DeleteFile, bind.
    rewrite (retrieveMetadataFromDB_failed _ _ _ _ Hget). now left. }
  destruct (items w !! id) as [md|] eqn:Hid.
  2:{ unfold DeleteFile, bind.
      rewrite (retrieveMetadataFromDB_missing _ _ _ Hget Hid). now left. }
  remember (DeleteFile s env id w) as res eqn:E.
  unfold DeleteFile, bind in E.
  rewrite (retrieveMetadataFromDB_found _ _ _ _ Hget Hid) in E.
  unfold s3.DeleteObject, dynamodb.DeleteItem, bind, ret, issue, setObjects,
    setItems in E. cbn in E.
  destruct (deleteObjectErr env); cbn in E; [subst res; now left|].
  right. exists md. split; [reflexivity|].
  destruct (deleteItemErr env) eqn:Hitem; cbn in E; subst res; cbn;
    split; auto.
Qed.

Lemma uuid_String_length rander :
  String.length (uuid.String (uuid.New rander)) = 36%nat.
Proof. reflexivity. Qed.

Lemma newRecord_wellFormed env ext data :
  ext = ".jpeg" \/ ext = ".jpg" -> wellFormed (newRecord env ext data).
Proof.
  intros Hext. unfold wellFormed. cbn [newRecord ID Hash Extension CreatedAt UpdatedAt].
  split; [apply uuid_String_length|].
  split; [apply calculateHash_length|].
  split; [apply EncodeToString_lowerHex|].
  split; [exact Hext|reflexivity].
Qed.

Lemma reachable_wellFormed s w :
  reachable s w ->
  forall id md, items w !! id = Some md -> ID md = id /\ wellFormed md.
Proof.
  induction 1 as [|env rt w Hw IH]; intros id md Hid.
  - cbn in Hid. rewrite lookup_empty in Hid. discriminate.
  - destruct rt as [r|id'|id']; cbn [serve] in Hid.
    + destruct (CreateFile_effect s env r w)
        as [[_ Hi]|(ext & data & Hext & _ & [Hi|Hi])];
        rewrite Hi in Hid; eauto.
      apply lookup_insert_Some in Hid as [[<- <-]|[_ Hid]]; eauto.
      split; [reflexivity|]. apply newRecord_wellFormed. exact Hext.
    + rewrite (GetFile_items s env id' w) in Hid. eauto.
    + destruct (DeleteFile_effect s env id' w)
        as [[_ Hi]|(md' & _ & _ & [[_ Hi]|Hi])];
        rewrite Hi in Hid; eauto.
      apply lookup_delete_Some in Hid as [_ Hid]. eauto.
Qed.

(** X16: in every state of the table that the service builds from empty
    stores, whatever fails on the way, each record is stored under its
    own [ID], that [ID] has 36 characters, the [Hash] has 64 characters
    among [0-9a-f], the [Extension] is [.jpeg] or [.jpg], and [CreatedAt]
    equals [UpdatedAt]. *)
Theorem stored_records_are_well_formed s w id md :
  reachable s w -> items w !! id = Some md ->
  ID md = id /\ wellFormed md.
Proof.
  intros Hw Hid.
  exact (reachable_wellFormed s w Hw id md Hid).
Qed.

Lemma stored_records_are_well_formed_witness :
  ID photo = ID photo /\ wellFormed photo.
Proof.
  apply (stored_records_are_well_formed svc
           (snd (serve svc quiet (POST_file (upload "photo.jpg" jpeg))
                   emptyWorld))
           (ID photo) photo).
  - apply reachable_serve. apply reachable_empty.
  - vm_compute. reflexivity.
Defined.

Lemma GetFile_objects s env id w :
  objects (snd (GetFile s env id w)) = objects w.
Proof.
  unfold GetFile, bind.
  pose proof (retrieveMetadataFromDB_frame env id w) as Hframe.
  destruct (retrieveMetadataFromDB env id w) as [[[md|] [e|]] w1];
    cbn in Hframe; subst w1; try reflexivity.
  pose proof (generatePresignedURL_frame s env (ID md +:+ Extension md)
                {| objects := objects w; items := items w;
                   calls := calls w ++ [GetItem id] |}) as Hsign.
  destruct (generatePresignedURL s env _ _) as [[url|e] w2].
  all: cbn in Hsign; subst w2; reflexivity.
Qed.

Lemma servedCleanly_reachable s w : servedCleanly s w -> reachable s w.
Proof.
  induction 1 as [|env rt w Hw IH Hdel Hfresh].
  - apply reachable_empty.
  - apply reachable_serve. exact IH.
Qed.

Lemma append_same_length a : forall c b d,
  String.length a = String.length c -> a +:+ b = c +:+ d -> a = c.
Proof.
  induction a as [|x a IH]; intros [|y c] b d Hlen Heq;
    try discriminate Hlen; [reflexivity|].
  change (String x (a +:+ b) = String y (c +:+ d)) in Heq.
  injection Heq as -> Heq. injection Hlen as Hlen.
  f_equal. exact (IH c b d Hlen Heq).
Qed.

(** Records with distinct 36-character identifiers have distinct object
    keys. *)
Lemma objectKeyOf_distinct md1 md2 :
  String.length (ID md1) = 36%nat -> String.length (ID md2) = 36%nat ->
  ID md1 <> ID md2 ->
  ID md1 +:+ Extension md1 <> ID md2 +:+ Extension md2.
Proof.
  intros H1 H2 Hne Heq. apply Hne.
  apply (append_same_length _ _ _ _ (eq_trans H1 (eq_sym H2)) Heq).
Qed.

(** X17: from empty stores, as long as no metadata delete fails and the
    UUID generator never returns an identifier already in the table,
    every record of the table has its object in the bucket under
    [ID + Extension], and the [Hash] of the record is the SHA-256 hash of
    the bytes of that object; failures of uploads, of metadata writes and
    of object deletes do not break this. *)
Theorem records_keep_their_objects s w :
  servedCleanly s w -> intact w.
Proof.
  induction 1 as [|env rt w Hw IH Hdel Hfresh].
  { intros id md Hid. cbn in Hid. rewrite lookup_empty in Hid. discriminate. }
  pose proof (reachable_wellFormed s w (servedCleanly_reachable s w Hw))
    as Hshape.
  intros id md Hid.
  destruct rt as [r|id'|id']; cbn [serve] in *.
  - destruct (CreateFile_effect s env r w)
      as [[Ho Hi]|(ext & data & Hext & Ho & Hi)].
    { rewrite Ho. rewrite Hi in Hid. eauto. }
    cbv zeta in Ho. rewrite Ho.
    assert (Hold : items w !! id = Some md ->
              exists bytes,
                <[objectKeyOf (newRecord env ext data) := data]> (objects w)
                  !! (ID md +:+ Extension md) = Some bytes /\
                Hash md = calculateHash bytes).
    { intros Hbefore.
      destruct (Hshape id md Hbefore) as [Hkey (Hlen & _)].
      rewrite lookup_insert_ne; [eauto|].
      apply objectKeyOf_distinct; [apply uuid_String_length|exact Hlen|].
      cbn [newRecord ID]. intros Hsame.
      rewrite <- Hkey, <- Hsame in Hbefore. congruence. }
    destruct Hi as [Hi|Hi]; rewrite Hi in Hid; [auto|].
    apply lookup_insert_Some in Hid as [[_ <-]|[_ Hid]]; [|auto].
    exists data. split; [apply lookup_insert_eq|reflexivity].
  - rewrite (GetFile_objects s env id' w).
    rewrite (GetFile_items s env id' w) in Hid. eauto.
  - destruct (DeleteFile_effect s env id' w)
      as [[Ho Hi]|(md' & Hid' & Ho & [[Hfail _]|Hi])].
    { rewrite Ho. rewrite Hi in Hid. eauto. }
    { contradiction. }
    rewrite Ho. rewrite Hi in Hid.
    apply lookup_delete_Some in Hid as [Hne Hid].
    destruct (Hshape id md Hid) as [Hkey (Hlen & _)].
    destruct (Hshape id' md' Hid') as [Hkey' (Hlen' & _)].
    rewrite lookup_delete_ne; [eauto|].
    apply objectKeyOf_distinct; [exact Hlen'|exact Hlen|congruence].
Qed.

Lemma records_keep_their_objects_witness :
  exists bytes,
    objects (snd (serve svc quiet (POST_file (upload "photo.jpg" jpeg))
                    emptyWorld))
      !! (ID photo +:+ Extension photo) = Some bytes /\
    Hash photo = calculateHash bytes.
Proof.
  assert (Hclean : servedCleanly svc
            (snd (serve svc quiet (POST_file (upload "photo.jpg" jpeg))
                    emptyWorld))).
  { apply servedCleanly_serve;
      [apply servedCleanly_empty | reflexivity | reflexivity]. }
  apply (records_keep_their_objects svc _ Hclean (ID photo) photo).
  vm_compute. reflexivity.
Defined.

(** Without the condition on deletes the property is lost: an object
    delete followed by a failed metadata delete leaves a record without
    its object. *)
Example failed_metadata_delete_breaks_integrity :
  ~ intact (snd (DeleteFile svc
                   (faulty None None None None None None (Some "throttled") None)
                   (ID photo) stored)).
Proof.
  intros H. destruct (H (ID photo) photo) as (bytes & Hobj & _).
  - vm_compute. reflexivity.
  - vm_compute in Hobj. discriminate.
Qed.

(** ** What the answers depend on *)

Lemma DeleteFile_absent s env id w :
  getItemErr env = None -> items w !! id = None ->
  fst (DeleteFile s env id w) = Panic nil_dereference.
Proof.
  intros Hget Hid. unfold DeleteFile, bind.
  rewrite (retrieveMetadataFromDB_missing _ _ _ Hget Hid). reflexivity.
Qed.

Lemma DeleteFile_found_outcome s env id md w :
  getItemErr env = None -> items w !! id = Some md ->
  fst (DeleteFile s env id w) =
  match deleteObjectErr env, deleteItemErr env with
  | Some e, _ => http_Error e http.StatusInternalServerError
  | None, Some e => http_Error e http.StatusInternalServerError
  | None, None => Response http.StatusNoContent Empty
  end.
Proof.
  intros Hget Hid. unfold DeleteFile, bind.
  rewrite (retrieveMetadataFromDB_found _ _ _ _ Hget Hid).
  unfold s3.DeleteObject, dynamodb.DeleteItem, bind, ret, issue, setObjects,
    setItems. cbn.
  destruct (deleteObjectErr env); cbn; [reflexivity|].
  destruct (deleteItemErr env); reflexivity.
Qed.

(** X4: a DELETE answers 404 exactly when the metadata lookup itself
    fails; the message is then the one of the store, the lookup is the
    only call made and neither store changes.  An identifier without a
    record never gets a 404 from DELETE. *)
Theorem DeleteFile_404_iff_lookup_failed s env id w :
  (status (fst (DeleteFile s env id w)) = Some http.StatusNotFound <->
   exists e, getItemErr env = Some e) /\
  (forall e, getItemErr env = Some e ->
     DeleteFile s env id w =
     (http_Error e http.StatusNotFound,
      after w (objects w) (items w) [GetItem id])).
Proof.
  assert (Hfailed : forall e, getItemErr env = Some e ->
            DeleteFile s env id w =
            (http_Error e http.StatusNotFound,
             after w (objects w) (items w) [GetItem id])).
  { intros e Hget. unfold DeleteFile, bind.
    rewrite (retrieveMetadataFromDB_failed _ _ _ _ Hget). reflexivity. }
  split; [|exact Hfailed].
  destruct (getItemErr env) as [e|] eqn:Hget.
  { rewrite (Hfailed e eq_refl). cbn. split; eauto. }
  split; [|intros [e He]; discriminate].
  destruct (items w !! id) as [md|] eqn:Hid.
  - rewrite (DeleteFile_found_outcome _ _ _ _ w Hget Hid).
    destruct (deleteObjectErr env); [discriminate|].
    destruct (deleteItemErr env); discriminate.
  - rewrite (DeleteFile_absent _ _ _ w Hget Hid). discriminate.
Qed.

Lemma DeleteFile_404_iff_lookup_failed_witness :
  DeleteFile svc
    (faulty None None None None None (Some "timeout") None None)
    (ID photo) stored =
  (http_Error "timeout" http.StatusNotFound,
   after stored (objects stored) (items stored) [GetItem (ID photo)]).
Proof.
  destruct (DeleteFile_404_iff_lookup_failed svc
              (faulty None None None None None (Some "timeout") None None)
              (ID photo) stored) as [_ H].
  apply H. reflexivity.
Defined.

Lemma storeBuffered_answer_by_table s env ext data w1 w2 :
  items w1 = items w2 ->
  fst (storeBuffered s env ext data w1) = fst (storeBuffered s env ext data w2).
Proof.
  intros Heq.
  destruct (queryErr env) as [e|] eqn:Hquery.
  { now rewrite !(storeBuffered_query_failed _ _ _ _ _ _ Hquery). }
  destruct (head (dynamodb.matching (calculateHash data) (items w1)))
    as [existing|] eqn:Hhead.
  - rewrite (storeBuffered_hit _ _ _ _ _ w1 Hquery Hhead).
    rewrite Heq in Hhead.
    rewrite (storeBuffered_hit _ _ _ _ _ w2 Hquery Hhead). reflexivity.
  - apply head_None in Hhead.
    rewrite (storeBuffered_miss s _ ext _ w1 Hquery Hhead).
    rewrite Heq in Hhead.
    rewrite (storeBuffered_miss s _ ext _ w2 Hquery Hhead).
    destruct (putObjectErr env); [reflexivity|].
    destruct (putItemErr env); reflexivity.
Qed.

(** X18: the answer to a request is determined by the request, by what
    the surroundings answer and by the table alone: two worlds with the
    same table get the same answer whatever their buckets hold.  The
    handlers never look into the bucket, so a GET answers 200 for a
    record whose object is gone. *)
Theorem answers_ignore_the_bucket s env rt w1 w2 :
  items w1 = items w2 ->
  fst (serve s env rt w1) = fst (serve s env rt w2).
Proof.
  intros Heq. destruct rt as [r|id|id]; cbn [serve].
  - destruct (FormFile r) as [[f hd]|e] eqn:Hform.
    2:{ now rewrite !(CreateFile_bad_form _ _ _ _ _ Hform). }
    destruct (validateFile env f (Filename hd)) as [[ext|e] f1] eqn:Hv.
    2:{ now rewrite !(CreateFile_refused _ _ _ _ _ _ _ _ Hform Hv). }
    destruct (copyErr env) as [e|] eqn:Hcopy.
    { now rewrite !(CreateFile_copy_failed _ _ _ _ _ _ _ _ _ Hform Hv Hcopy). }
    rewrite !(CreateFile_buffered _ _ _ _ _ _ _ _ Hform Hv Hcopy).
    apply storeBuffered_answer_by_table. exact Heq.
  - destruct (getItemErr env) as [e|] eqn:Hget.
    { unfold GetFile, bind.
      now rewrite !(retrieveMetadataFromDB_failed _ _ _ _ Hget). }
    destruct (items w1 !! id) as [md|] eqn:Hid.
    + rewrite (GetFile_found _ _ _ _ w1 Hget Hid). rewrite Heq in Hid.
      rewrite (GetFile_found _ _ _ _ w2 Hget Hid). reflexivity.
    + rewrite (GetFile_missing _ _ _ w1 Hget Hid). rewrite Heq in Hid.
      rewrite (GetFile_missing _ _ _ w2 Hget Hid). reflexivity.
  - destruct (getItemErr env) as [e|] eqn:Hget.
    { unfold DeleteFile, bind.
      now rewrite !(retrieveMetadataFromDB_failed _ _ _ _ Hget). }
    destruct (items w1 !! id) as [md|] eqn:Hid.
    + rewrite (DeleteFile_found_outcome _ _ _ _ w1 Hget Hid).
      rewrite Heq in Hid.
      rewrite (DeleteFile_found_outcome _ _ _ _ w2 Hget Hid). reflexivity.
    + rewrite (DeleteFile_absent _ _ _ w1 Hget Hid). rewrite Heq in Hid.
      rewrite (DeleteFile_absent _ _ _ w2 Hget Hid). reflexivity.
Qed.

Lemma answers_ignore_the_bucket_witness :
  fst (serve svc quiet (GET_file (ID photo))
         {| objects := ∅; items := items stored; calls := [] |}) =
  fst (serve svc quiet (GET_file (ID photo)) stored).
Proof.
  apply (answers_ignore_the_bucket svc quiet (GET_file (ID photo))
           {| objects := ∅; items := items stored; calls := [] |} stored).
  reflexivity.
Defined.

(** ** Status codes *)

Lemma signedReply_status s env code md :
  status (signedReply s env code md) = Some code \/
  status (signedReply s env code md) = Some http.StatusInternalServerError.
Proof. unfold signedReply. destruct (presign env _ _); cbn; auto. Qed.

(** X19: the statuses of each route.  An upload answers 200, 201, 400,
    415 or 500; a GET answers 200, 404 or 500; a DELETE answers 204, 404
    or 500, or panics, which happens exactly when the lookup succeeds
    and finds no record.  Uploads and GETs never panic. *)
Theorem statuses_of_routes s env rt w :
  match rt with
  | POST_file r =>
      In (status (fst (serve s env rt w)))
         [Some http.StatusOK; Some http.StatusCreated;
          Some http.StatusBadRequest; Some http.StatusUnsupportedMediaType;
          Some http.StatusInternalServerError]
  | GET_file id =>
      In (status (fst (serve s env rt w)))
         [Some http.StatusOK; Some http.StatusNotFound;
          Some http.StatusInternalServerError]
  | DELETE_file id =>
      (In (status (fst (serve s env rt w)))
          [Some http.StatusNoContent; Some http.StatusNotFound;
           Some http.StatusInternalServerError] /\
       ~ (getItemErr env = None /\ items w !! id = None)) \/
      (fst (serve s env rt w) = Panic nil_dereference /\
       getItemErr env = None /\ items w !! id = None)
  end.
Proof.
  destruct rt as [r|id|id]; cbn [serve].
  - destruct (FormFile r) as [[f hd]|e] eqn:Hform.
    2:{ rewrite (CreateFile_bad_form _ _ _ _ w Hform). cbn. tauto. }
    destruct (validateFile env f (Filename hd)) as [[ext|e] f1] eqn:Hv.
    2:{ rewrite (CreateFile_refused _ _ _ _ _ _ _ w Hform Hv). cbn. tauto. }
    destruct (copyErr env) as [e|] eqn:Hcopy.
    { rewrite (CreateFile_copy_failed _ _ _ _ _ _ _ _ w Hform Hv Hcopy).
      cbn. tauto. }
    rewrite (CreateFile_buffered _ _ _ _ _ _ _ w Hform Hv Hcopy).
    destruct (queryErr env) as [e|] eqn:Hquery.
    { rewrite (storeBuffered_query_failed _ _ _ _ _ w Hquery). cbn. tauto. }
    destruct (head (dynamodb.matching (calculateHash (content f)) (items w)))
      as [existing|] eqn:Hhead.
    { rewrite (storeBuffered_hit _ _ _ _ _ w Hquery Hhead). cbn [fst].
      destruct (signedReply_status s env http.StatusOK existing) as [-> | ->];
        cbn; tauto. }
    apply head_None in Hhead.
    rewrite (storeBuffered_miss s _ ext _ w Hquery Hhead).
    destruct (putObjectErr env); [cbn; tauto|].
    destruct (putItemErr env); [cbn; tauto|]. cbn [fst].
    destruct (signedReply_status s env http.StatusCreated
                (newRecord env ext (content f))) as [-> | ->]; cbn; tauto.
  - destruct (getItemErr env) as [e|] eqn:Hget.
    { unfold GetFile, bind.
      rewrite (retrieveMetadataFromDB_failed _ _ _ _ Hget). cbn. tauto. }
    destruct (items w !! id) as [md|] eqn:Hid.
    + rewrite (GetFile_found _ _ _ _ w Hget Hid). cbn [fst].
      destruct (signedReply_status s env http.StatusOK md) as [-> | ->];
        cbn; tauto.
    + rewrite (GetFile_missing _ _ _ w Hget Hid). cbn. tauto.
  - destruct (getItemErr env) as [e|] eqn:Hget.
    { left. split; [|intros [? _]; discriminate].
      unfold DeleteFile, bind.
      rewrite (retrieveMetadataFromDB_failed _ _ _ _ Hget). cbn. tauto. }
    destruct (items w !! id) as [md|] eqn:Hid.
    + left. split; [|intros [_ ?]; discriminate].
      rewrite (DeleteFile_found_outcome _ _ _ _ w Hget Hid).
      destruct (deleteObjectErr env); [cbn; tauto|].
      destruct (deleteItemErr env); cbn; tauto.
    + right. split; [|split; reflexivity].
      apply (DeleteFile_absent _ _ _ w Hget Hid).
Qed.
